(** * react-md: presentational components as pure render functions

  A shallow embedding of the components of the react-md sources
  (GridCell, FloatingLabel, ConditionalPortal, Select, DemoPage) and of the
  development-only [propTypes] guards that close their modules.

  A function component is embedded as a function from its props, the
  context values it reads and the state cells it owns to the element tree
  it returns.  Event handlers are embedded as transitions on the state
  cells of the instance together with the trace of callbacks they invoke. *)

From Stdlib Require Import ZArith List Bool Ascii String DecimalString Lia.
From stdpp Require Import base gmap strings.
From Equations Require Import Equations.
Import ListNotations.

#[local] Arguments String.append !s1 s2 : simpl nomatch.

(* ================================================================== *)
(** * The fragment of the host language the components rely on *)
(* ================================================================== *)

Module JS.

(** A source string is a sequence of UTF-16 code units.  A [string] here is
    a sequence of code units below 256 (one [ascii] per unit); larger code
    units are outside this model.  Numbers are modelled by the integers
    [Z] of magnitude up to [MAX_SAFE_INTEGER], the integers the host
    represents exactly; larger, fractional and non-finite numbers are
    outside this model. *)

(** The regular-expression class [\s], restricted to code units below 256:
    TAB, LF, VT, FF, CR, SPACE and NO-BREAK SPACE. *)
Definition is_white_space (c : ascii) : bool :=
  let n := nat_of_ascii c in
  ((9 <=? n) && (n <=? 13)) || (n =? 32) || (n =? 160).

(** The separators of the DOM token list of a [class] attribute
    (ASCII whitespace: TAB, LF, FF, CR, SPACE). *)
Definition is_class_separator (c : ascii) : bool :=
  let n := nat_of_ascii c in
  (n =? 9) || (n =? 10) || (n =? 12) || (n =? 13) || (n =? 32).

(** [`${n}`] for an integer [n]: the decimal numeral.  This is what the
    host prints for the integers of magnitude up to [MAX_SAFE_INTEGER]
    (2^53 - 1); above it the host prints the shortest digits that read back
    as the same number, and an exponent from 10^21 on, which this function
    does not follow.  Statements about a printed numeral carry that bound. *)
Definition number_to_string (n : Z) : string :=
  NilZero.string_of_int (Z.to_int n).

(** [`${x}`] for [x : number | undefined]. *)
Definition template_of (x : option Z) : string :=
  match x with
  | Some n => number_to_string n
  | None => "undefined"
  end.

Definition MAX_SAFE_INTEGER : Z := 2 ^ 53 - 1.

(** Style values ([number | string]). *)
Inductive CssValue :=
| CssNum (n : Z)
| CssStr (s : string).

(** A style object: a key may be present and hold [undefined]. *)
Abbreviation Style := (gmap string (option CssValue)).

(** Attribute values of the remaining ([...props]) attributes. *)
Inductive AttrValue :=
| AStr (s : string)
| ANum (n : Z)
| ABool (b : bool)
| AHandler (id : nat).

Abbreviation Attrs := (gmap string AttrValue).

(** Values that flow through props and children.  An element carries its
    type, the props the components below inspect ([style], [className],
    [ref]), its other props and its children. *)
#[local] Unset Elimination Schemes.
Inductive Value :=
| VUndefined
| VNull
| VBool (b : bool)
| VNumber (n : Z)
| VString (s : string)
| VArray (items : list Value)
| VElement (type : string) (style : option Style)
           (className : option string) (ref : option nat)
           (rest : Attrs) (children : Value).
#[local] Set Elimination Schemes.

(** ToBoolean. *)
Definition truthy (v : Value) : bool :=
  match v with
  | VUndefined | VNull => false
  | VBool b => b
  | VNumber n => negb (n =? 0)%Z
  | VString s => negb (String.eqb s "")
  | VArray _ | VElement _ _ _ _ _ _ => true
  end.

Definition of_bool (b : option bool) : Value :=
  match b with Some b => VBool b | None => VUndefined end.

Definition of_number (n : option Z) : Value :=
  match n with Some n => VNumber n | None => VUndefined end.

(** [a && b], [a || b] and [!a] on values. *)
Definition js_and (a b : Value) : Value := if truthy a then b else a.
Definition js_or (a b : Value) : Value := if truthy a then a else b.
Definition js_not (a : Value) : Value := VBool (negb (truthy a)).

(** [a === b] on primitive values.  Object identity is not modelled: arrays
    and elements compare unequal. *)
Definition strict_equal (a b : Value) : bool :=
  match a, b with
  | VUndefined, VUndefined => true
  | VNull, VNull => true
  | VBool x, VBool y => Bool.eqb x y
  | VNumber x, VNumber y => (x =? y)%Z
  | VString x, VString y => String.eqb x y
  | _, _ => false
  end.

Definition truthy_bool (b : option bool) : bool := truthy (of_bool b).
Definition truthy_number (n : option Z) : bool := truthy (of_number n).
Definition truthy_string (s : option string) : bool :=
  match s with Some s => negb (String.eqb s "") | None => false end.

(** [a && o] for a boolean [a] and an optional object [o], read for its
    truthy result only: the object when [a] holds and [o] is defined. *)
Definition and_then {A} (a : bool) (o : option A) : option A :=
  if a then o else None.

(** [x || y] on optional objects. *)
Definition or_else {A} (x y : option A) : option A :=
  match x with Some _ => x | None => y end.

(** A destructuring default [{ f = d } = o]: the default is used exactly
    when the field is [undefined]. *)
Definition with_default {A} (field dflt : option A) : option A :=
  match field with Some _ => field | None => dflt end.

(** Object spread of an optional style object. *)
Definition spread (s : option Style) : Style :=
  match s with Some m => m | None => ∅ end.

(** Structural equality of objects: the same keys with the same values. *)
Definition sameStyle (a b : option Style) : Prop :=
  match a, b with
  | Some x, Some y => forall k, x !! k = y !! k
  | None, None => True
  | _, _ => False
  end.

Definition sameAttrs (a b : Attrs) : Prop := forall k, a !! k = b !! k.

(** ** The DOM token list of a class string *)

Definition flush (cur : string) : list string :=
  match cur with EmptyString => [] | _ => [cur] end.

Fixpoint split_class (s cur : string) : list string :=
  match s with
  | EmptyString => flush cur
  | String c r =>
      if is_class_separator c
      then flush cur ++ split_class r ""
      else split_class r (cur +:+ String c "")
  end.

Definition classList (className : string) : list string :=
  split_class className "".

Fixpoint no_separator (s : string) : bool :=
  match s with
  | EmptyString => true
  | String c r => negb (is_class_separator c) && no_separator r
  end.

(** An optional class string, read as the empty string when absent. *)
Definition orEmpty (s : option string) : string :=
  match s with Some s => s | None => "" end.

(** ** classnames *)

(** The arguments [cn] receives in these sources: a possibly undefined
    string, or an object from class names to flags. *)
Inductive ClassValue :=
| CStr (s : option string)
| CObj (flags : list (string * Value)).

Definition class_words (a : ClassValue) : list string :=
  match a with
  | CStr (Some s) => if String.eqb s "" then [] else [s]
  | CStr None => []
  | CObj flags => map fst (List.filter (fun kv => truthy (snd kv)) flags)
  end.

Fixpoint join (sep : string) (l : list string) : string :=
  match l with
  | [] => ""
  | [x] => x
  | x :: r => x +:+ sep +:+ join sep r
  end.

(** [classnames(...args)]: falsy arguments are skipped, strings are kept,
    the keys of an object are kept where the value is truthy; the result is
    joined by single spaces. *)
Definition cn (args : list ClassValue) : string :=
  join " " (concat (map class_words args)).

End JS.

(* ================================================================== *)
(** * The [bem] class-name helper *)
(* ================================================================== *)

Module Bem.
Import JS.

Abbreviation Modifier := (list (string * Value)).

(** The first argument of a block function: an element name or a modifier
    object. *)
Inductive BlockArg :=
| BElement (name : string)
| BModifier (m : Modifier).

(** Modelled from the spec: the [bem] helper ([css/bem], re-exported by the
    theme and utils packages) is not among the sources.  The spec speaks of
    "CSS class composition" and of a class-list "token reflecting span 3";
    the helper is modelled by the block-element-modifier convention its
    call sites rely on: [block()] is the block name, [block("e")] is
    [block__e], and each modifier key whose value is truthy adds the token
    [<base>--<key>] after the base, in key order. *)
Definition modify (base : string) (modifier : option Modifier) : string :=
  match modifier with
  | None => base
  | Some m =>
      fold_left
        (fun s kv =>
           if truthy (snd kv) then s +:+ " " +:+ base +:+ "--" +:+ fst kv
           else s)
        m base
  end.

(** Modelled from the spec: the block function [bem(base)] returns, applied
    to an optional element name or modifier object and an optional modifier
    object (see [modify]). *)
Definition bem (base : string) (elementOrModifier : option BlockArg)
           (modifier : option Modifier) : string :=
  match elementOrModifier with
  | None => base
  | Some (BElement "") => base
  | Some (BModifier m) => modify base (Some m)
  | Some (BElement e) => modify (base +:+ "__" +:+ e) modifier
  end.

(** The tokens a modifier object stands for: one per key whose value is
    truthy. *)
Definition modifierTokens (base : string) (m : Modifier) : list string :=
  map (fun kv : string * Value => base +:+ "--" +:+ fst kv)
      (List.filter (fun kv => truthy (snd kv)) m).

(** Modifier keys that are single words. *)
Definition wordKeys (m : Modifier) : Prop :=
  Forall (fun kv : string * Value => no_separator (fst kv) = true) m.

End Bem.

(* ================================================================== *)
(** * GridCell *)
(* ================================================================== *)

Module GridCell.
Import JS Bem.

Record GridCSSProperties := {
  rowSpan : option Z;
  rowStart : option CssValue;
  rowEnd : option CssValue;
  colStart : option CssValue;
  colEnd : option CssValue;
}.

Record GridCellProps := {
  style : option Style;
  className : option string;
  clone : option bool;
  forwardedRef : option nat;
  children : Value;
  colSpan : option Z;
  (** [rowSpan], [rowStart], [rowEnd], [colStart], [colEnd] of the props *)
  base : GridCSSProperties;
  phone : option GridCSSProperties;
  tablet : option GridCSSProperties;
  desktop : option GridCSSProperties;
  largeDesktop : option GridCSSProperties;
  (** the remaining attributes, [...props] *)
  props : Attrs;
}.

(** The fields of [useAppSizeContext()] the component reads. *)
Record AppSize := {
  isPhone : bool;
  isTablet : bool;
  isDesktop : bool;
  isLargeDesktop : bool;
}.

Definition block := bem "rmd-grid".

(** [(isPhone && phone) || (isTablet && tablet) || (isDesktop && desktop)
    || (isLargeDesktop && largeDesktop)], as tested by [if (media)]. *)
Definition media (p : GridCellProps) (ctx : AppSize) : option GridCSSProperties :=
  or_else (and_then (isPhone ctx) (phone p))
    (or_else (and_then (isTablet ctx) (tablet p))
       (or_else (and_then (isDesktop ctx) (desktop p))
          (and_then (isLargeDesktop ctx) (largeDesktop p)))).

(** The five layout variables after the optional destructuring of
    [media]. *)
Definition layout (p : GridCellProps) (ctx : AppSize) : GridCSSProperties :=
  match media p ctx with
  | Some m =>
      {| rowSpan := with_default (rowSpan m) (rowSpan (base p));
         rowStart := with_default (rowStart m) (rowStart (base p));
         rowEnd := with_default (rowEnd m) (rowEnd (base p));
         colStart := with_default (colStart m) (colStart (base p));
         colEnd := with_default (colEnd m) (colEnd (base p)) |}
  | None => base p
  end.

Definition gridRowEnd (g : GridCSSProperties) : option CssValue :=
  if truthy_number (rowSpan g)
  then Some (CssStr ("span " +:+ template_of (rowSpan g)))
  else rowEnd g.

Definition cellStyle (p : GridCellProps) (ctx : AppSize) : Style :=
  let g := layout p ctx in
  spread (style p) ∪
    <["gridColumnStart" := colStart g]>
    (<["gridColumnEnd" := colEnd g]>
     (<["gridRowStart" := rowStart g]>
      (<["gridRowEnd" := gridRowEnd g]> ∅))).

Definition cellClassName (p : GridCellProps) : string :=
  cn [ CStr (Some (block (Some (BElement "cell"))
                     (Some [(template_of (colSpan p), of_number (colSpan p))])));
       CStr (className p) ].

Definition GridCell (p : GridCellProps) (ctx : AppSize) : Value :=
  match truthy_bool (clone p), children p with
  | true, VElement type cstyle cclass cref crest cchildren =>
      (* cloneElement(child, { style, className }) *)
      VElement type
        (Some (cellStyle p ctx ∪ spread cstyle))
        (Some (cn [CStr (Some (cellClassName p)); CStr cclass]))
        cref crest cchildren
  | _, _ =>
      VElement "div" (Some (cellStyle p ctx)) (Some (cellClassName p))
        (forwardedRef p) (props p) (children p)
  end.

(** The [className] of a rendered element. *)
Definition class_of (v : Value) : string :=
  match v with
  | VElement _ _ (Some c) _ _ _ => c
  | _ => ""
  end.

Definition style_of (v : Value) : Style :=
  match v with
  | VElement _ (Some s) _ _ _ _ => s
  | _ => ∅
  end.

(** ** The vocabulary of the documentation *)

Definition cellToken : string := "rmd-grid__cell".

(** The token that reflects a span of [n] columns. *)
Definition spanToken (n : Z) : string := "rmd-grid__cell--" +:+ number_to_string n.

(** Any token of the span family. *)
Definition isSpanToken (t : string) : bool := String.prefix "rmd-grid__cell--" t.

(** The tokens that come from the caller: those of [className] and, when the
    cell is cloned into its child, those of the child's own [className]. *)
Definition callerTokens (p : GridCellProps) : list string :=
  classList (orEmpty (className p)) ++
  match truthy_bool (clone p), children p with
  | true, VElement _ _ cclass _ _ _ => classList (orEmpty cclass)
  | _, _ => []
  end.

(** Equal props, and equal context values. *)
Definition sameProps (p q : GridCellProps) : Prop :=
  sameStyle (style p) (style q)
  /\ className p = className q
  /\ clone p = clone q
  /\ forwardedRef p = forwardedRef q
  /\ children p = children q
  /\ colSpan p = colSpan q
  /\ base p = base q
  /\ phone p = phone q
  /\ tablet p = tablet q
  /\ desktop p = desktop q
  /\ largeDesktop p = largeDesktop q
  /\ sameAttrs (props p) (props q).

Definition sameContext (c d : AppSize) : Prop :=
  isPhone c = isPhone d
  /\ isTablet c = isTablet d
  /\ isDesktop c = isDesktop d
  /\ isLargeDesktop c = isLargeDesktop d.

(** The responsive overrides in their fixed order, each paired with the
    size flag that enables it. *)
Definition candidates (p : GridCellProps) (ctx : AppSize)
  : list (bool * option GridCSSProperties) :=
  [ (isPhone ctx, phone p);
    (isTablet ctx, tablet p);
    (isDesktop ctx, desktop p);
    (isLargeDesktop ctx, largeDesktop p) ].

(** The override of the first pair whose flag holds and whose object is
    defined. *)
Fixpoint firstTruthy (l : list (bool * option GridCSSProperties))
  : option GridCSSProperties :=
  match l with
  | [] => None
  | (true, Some g) :: _ => Some g
  | _ :: rest => firstTruthy rest
  end.

(** One field of an override, falling back to the base prop when the
    override leaves it [undefined]. *)
Definition fallback {A} (override base : option A) : option A :=
  match override with
  | Some v => Some v
  | None => base
  end.

End GridCell.

(* ================================================================== *)
(** * FloatingLabel *)
(* ================================================================== *)

Module FloatingLabel.
Import JS Bem.

(** The props handed on to [Label] with [{...props}]: the three that have a
    declared default, and everything else a caller may pass. *)
Record LabelProps := {
  error : option bool;
  active : option bool;
  disabled : option bool;
  style : option Style;
  children : Value;
  others : Attrs;
}.

Record FloatingLabelProps := {
  className : option string;
  forwardedRef : option nat;
  underline : option bool;
  outline : option bool;
  valued : bool;
  dense : option bool;
  covering : option bool;
  leftChildren : option bool;
  rightChildren : option bool;
  (** [...props] *)
  props : LabelProps;
}.

(** The element [<Label {...props} ref={forwardedRef} className={...} />]. *)
Record LabelElement := {
  labelProps : LabelProps;
  ref : option nat;
  labelClassName : string;
}.

Definition block := bem "rmd-floating-label".

(** [Required<Pick<FloatingLabelProps, "error" | "active" | "disabled" |
    "covering">>] *)
Record DefaultProps := {
  d_error : bool;
  d_active : bool;
  d_disabled : bool;
  d_covering : bool;
}.

Definition defaultProps : DefaultProps :=
  {| d_error := false;
     d_active := false;
     d_disabled := false;
     d_covering := false |}.

(** The runtime's resolution of [defaultProps]: a prop that is [undefined]
    takes its declared default before the component function runs. *)
Definition withDefaultProps (p : FloatingLabelProps) : FloatingLabelProps :=
  {| className := className p;
     forwardedRef := forwardedRef p;
     underline := underline p;
     outline := outline p;
     valued := valued p;
     dense := dense p;
     covering := with_default (covering p) (Some (d_covering defaultProps));
     leftChildren := leftChildren p;
     rightChildren := rightChildren p;
     props :=
       {| error := with_default (error (props p)) (Some (d_error defaultProps));
          active := with_default (active (props p)) (Some (d_active defaultProps));
          disabled :=
            with_default (disabled (props p)) (Some (d_disabled defaultProps));
          style := style (props p);
          children := children (props p);
          others := others (props p) |} |}.

(** [const isActive = active || valued]. *)
Definition isActive (p : FloatingLabelProps) : Value :=
  js_or (of_bool (active (props p))) (VBool (valued p)).

(** The modifier object handed to [block]. *)
Definition modifiers (p : FloatingLabelProps) : Modifier :=
  [ ("dense", of_bool (dense p));
    ("active", isActive p);
    ("inactive", js_and (VBool (valued p)) (js_not (of_bool (active (props p)))));
    ("covering", of_bool (covering p));
    ("outline-active", js_and (isActive p) (of_bool (outline p)));
    ("underline-left-offset",
       js_and (js_and (isActive p) (of_bool (underline p)))
              (of_bool (leftChildren p))) ].

(** The class computed from the props alone, before the caller's
    [className] is appended. *)
Definition computedClass (p : FloatingLabelProps) : string :=
  block (Some (BModifier (modifiers p))) None.

(** The component function, on props that went through [withDefaultProps]. *)
Definition render (p : FloatingLabelProps) : LabelElement :=
  {| labelProps := props p;
     ref := forwardedRef p;
     labelClassName := cn [CStr (Some (computedClass p)); CStr (className p)] |}.

Definition FloatingLabel (p : FloatingLabelProps) : LabelElement :=
  render (withDefaultProps p).

(** ** The vocabulary of the documentation *)

Definition activeToken : string := "rmd-floating-label--active".
Definition inactiveToken : string := "rmd-floating-label--inactive".

(** The [active] prop as a flag ([undefined] reads as [false]). *)
Definition activeFlag (p : FloatingLabelProps) : bool :=
  truthy_bool (active (props p)).

(** Equal props. *)
Definition sameProps (p q : FloatingLabelProps) : Prop :=
  className p = className q
  /\ forwardedRef p = forwardedRef q
  /\ underline p = underline q
  /\ outline p = outline q
  /\ valued p = valued q
  /\ dense p = dense q
  /\ covering p = covering q
  /\ leftChildren p = leftChildren q
  /\ rightChildren p = rightChildren q
  /\ error (props p) = error (props q)
  /\ active (props p) = active (props q)
  /\ disabled (props p) = disabled (props q)
  /\ sameStyle (style (props p)) (style (props q))
  /\ children (props p) = children (props q)
  /\ sameAttrs (others (props p)) (others (props q)).

(** The tokens computed from the props alone. *)
Definition computedTokens (p : FloatingLabelProps) : list string :=
  classList (computedClass (withDefaultProps p)).

End FloatingLabel.

(* ================================================================== *)
(** * ConditionalPortal *)
(* ================================================================== *)

Module ConditionalPortal.
Import JS.

(** [PortalInto]: a selector string, a function returning a node, a node, or
    [null]. *)
Inductive PortalInto :=
| IntoSelector (selector : string)
| IntoFunction (fn : nat)
| IntoNode (node : nat)
| IntoNull.

Definition truthy_into (i : option PortalInto) : bool :=
  match i with
  | None | Some IntoNull => false
  | Some (IntoSelector s) => negb (String.eqb s "")
  | Some (IntoFunction _) | Some (IntoNode _) => true
  end.

Record ConditionalPortalProps := {
  portal : option bool;
  portalInto : option PortalInto;
  portalIntoId : option string;
  visible : bool;
  (** [ReactElement | null] *)
  children : Value;
}.

(** The props of the [Portal] element. *)
Record PortalProps := {
  into : option PortalInto;
  intoId : option string;
  portalVisible : bool;
  portalChildren : Value;
}.

(** What the component returns: its children as they are, or a [Portal]
    element around them. *)
Inductive Output :=
| InPlace (children : Value)
| Portal (p : PortalProps).

Definition ConditionalPortal (p : ConditionalPortalProps) : Output :=
  if negb (truthy_bool (portal p))
     && negb (truthy_into (portalInto p))
     && negb (truthy_string (portalIntoId p))
  then InPlace (children p)
  else Portal {| into := portalInto p;
                 intoId := portalIntoId p;
                 portalVisible := visible p;
                 portalChildren := children p |}.

(** ** The vocabulary of the documentation *)

(** All three portal props are absent or falsy. *)
Definition absentOrFalsy (p : ConditionalPortalProps) : Prop :=
  (portal p = None \/ portal p = Some false)
  /\ (portalInto p = None \/ portalInto p = Some IntoNull
      \/ portalInto p = Some (IntoSelector ""))
  /\ (portalIntoId p = None \/ portalIntoId p = Some "").

End ConditionalPortal.

(* ================================================================== *)
(** * DemoPage: the stylesheet links of the document head *)
(* ================================================================== *)

Module DemoPage.
Import JS.

(** ** [font.replace(/\s+/g, "+")] *)

(** The match of [\s+] anchored at the start of [s]: the quantifier is
    greedy, so the match takes every leading white-space code unit.  The
    result is the length of the match, 0 when there is none. *)
Fixpoint match_ws_plus (s : string) : nat :=
  match s with
  | String c r => if is_white_space c then S (match_ws_plus r) else 0
  | EmptyString => 0
  end.

Fixpoint drop (n : nat) (s : string) : string :=
  match n, s with
  | S n', String _ r => drop n' r
  | _, _ => s
  end.

(** A global replace scans from the left: where the pattern matches, the
    replacement is emitted and the scan resumes after the match; elsewhere
    the code unit is copied. *)
Equations? replace_ws_plus (replacement s : string) : string
  by wf (String.length s) lt :=
replace_ws_plus replacement EmptyString := EmptyString;
replace_ws_plus replacement (String c r) with match_ws_plus (String c r) => {
  | 0 := String c (replace_ws_plus replacement r);
  | S n := replacement +:+ replace_ws_plus replacement (drop n r) }.
Proof.
  assert (shorter : forall k t, String.length (drop k t) <= String.length t).
  { induction k as [|k IH]; intros [|x t]; simpl;
      first [lia | specialize (IH t); lia]. }
  specialize (shorter n r). simpl. lia.
Qed.

Record DemoPageProps := {
  className : option string;
  packageName : string;
  fonts : option (list string);
}.

(** [<link key={font} rel="stylesheet" href={href} />] *)
Record LinkElement := {
  key : string;
  rel : string;
  href : string;
}.

Definition EMPTY_LIST : list string := [].

Definition fontAwesomeHref : string :=
  "https://cdnjs.cloudflare.com/ajax/libs/font-awesome/4.6.3/css/font-awesome.min.css".

Definition fontHref (font : string) : string :=
  if String.eqb font "Font Awesome" then fontAwesomeHref
  else
    let name := replace_ws_plus "+" font in
    "https://fonts.googleapis.com/css2?family=" +:+ name +:+ "&display=swap".

Definition fontLink (font : string) : LinkElement :=
  {| key := font; rel := "stylesheet"; href := fontHref font |}.

(** The children of [<Head>]: [fonts.map(...)], with [fonts] defaulted to
    [EMPTY_LIST] when the prop is [undefined]. *)
Definition headLinks (p : DemoPageProps) : list LinkElement :=
  let fonts := match fonts p with Some l => l | None => EMPTY_LIST end in
  map fontLink fonts.

(** ** The same replacement, as the documentation words it *)

(** The maximal runs of a string: consecutive code units of the same kind
    (white space or not), in order. *)
Fixpoint runs (s : string) : list (bool * string) :=
  match s with
  | EmptyString => []
  | String c r =>
      match runs r with
      | (b, run) :: rest =>
          if Bool.eqb b (is_white_space c)
          then (b, String c run) :: rest
          else (is_white_space c, String c "") :: (b, run) :: rest
      | [] => [(is_white_space c, String c "")]
      end
  end.

Fixpoint concat_string (l : list string) : string :=
  match l with
  | [] => ""
  | x :: r => x +:+ concat_string r
  end.

(** Every run of white space becomes a single ["+"]; every other run is
    kept. *)
Definition plus_for_runs (s : string) : string :=
  concat_string (map (fun r : bool * string => if fst r then "+" else snd r) (runs s)).

(** The stylesheet address of a font, as documented. *)
Definition documentedHref (font : string) : string :=
  if string_dec font "Font Awesome"
  then "https://cdnjs.cloudflare.com/ajax/libs/font-awesome/4.6.3/css/font-awesome.min.css"
  else "https://fonts.googleapis.com/css2?family=" +:+ plus_for_runs font
       +:+ "&display=swap".

(** The listed fonts. *)
Definition listedFonts (p : DemoPageProps) : list string :=
  match fonts p with Some l => l | None => [] end.

End DemoPage.

(* ================================================================== *)
(** * Module evaluation: the development-only [propTypes] guards *)
(* ================================================================== *)

Module ModuleScope.
Import JS.

(** The completion of a statement list: normal, or abrupt with a thrown
    error. *)
Inductive Completion (A : Type) :=
| Normal (a : A)
| Throw (error : string).
Arguments Normal {A} a.
Arguments Throw {A} error.

Definition bind {A B} (c : Completion A) (k : A -> Completion B) : Completion B :=
  match c with
  | Normal a => k a
  | Throw e => Throw e
  end.

Notation "x <- c ;; k" := (bind c (fun x => k))
  (at level 100, c at next level, right associativity).

(** [try { body } catch (e) { handler }] *)
Definition try_catch {A} (body : Completion A) (handler : string -> Completion A)
  : Completion A :=
  match body with
  | Normal a => Normal a
  | Throw e => handler e
  end.

(** The validators the modules build from the [prop-types] exports. *)
#[local] Unset Elimination Schemes.
Inductive Validator :=
| PBool
| PString
| PNumber
| PObject
| PFunc
| PNode
| POneOfType (alternatives : list Validator)
| POneOf (literals : list string)
| PShape (fields : list (string * Validator))
| PIsRequired (v : Validator).
#[local] Set Elimination Schemes.

(** The exports object of the optional [prop-types] dependency. *)
Inductive PropTypesExports := PropTypesModule.

(** What a module sees of its host: [process.env.NODE_ENV], and whether the
    optional dependency can be resolved. *)
Record Host := {
  NODE_ENV : option string;
  propTypesResolvable : bool;
}.

Definition require (h : Host) (name : string) : Completion PropTypesExports :=
  if String.eqb name "prop-types" && propTypesResolvable h
  then Normal PropTypesModule
  else Throw ("Cannot find module '" +:+ name +:+ "'").

(** [process.env.NODE_ENV !== "production"] *)
Definition notProduction (h : Host) : bool :=
  match NODE_ENV h with
  | Some env => negb (String.eqb env "production")
  | None => true
  end.

(** The static fields the module tails assign on a component. *)
Record Statics := {
  displayName : option string;
  propTypes : option (list (string * Validator));
}.

(** [let PropTypes; try { PropTypes = require("prop-types"); } catch (e) {}]:
    the variable keeps its initial falsy value when [require] throws. *)
Definition loadPropTypes (h : Host) : Completion (option PropTypesExports) :=
  try_catch (m <- require h "prop-types" ;; Normal (Some m))
            (fun _ => Normal None).

Definition numberOrString : Validator := POneOfType [PNumber; PString].

Definition gridCSSProperties : Validator :=
  PShape [ ("rowSpan", PNumber);
           ("rowStart", numberOrString);
           ("rowEnd", numberOrString);
           ("colSpan", PNumber);
           ("colStart", numberOrString);
           ("colEnd", numberOrString) ].

Definition GridCell_propTypes : list (string * Validator) :=
  [ ("style", PObject);
    ("className", PString);
    ("clone", PBool);
    ("rowSpan", PNumber);
    ("rowStart", numberOrString);
    ("rowEnd", numberOrString);
    ("colSpan", PNumber);
    ("colStart", numberOrString);
    ("colEnd", numberOrString);
    ("phone", gridCSSProperties);
    ("tablet", gridCSSProperties);
    ("desktop", gridCSSProperties);
    ("largeDesktop", gridCSSProperties);
    ("children", PNode);
    ("forwardedRef", POneOfType [PFunc; PObject]) ].

Definition GridCell_module (h : Host) : Completion Statics :=
  if notProduction h then
    PropTypes <- loadPropTypes h ;;
    match PropTypes with
    | Some _ =>
        Normal {| displayName := Some "GridCell";
                  propTypes := Some GridCell_propTypes |}
    | None => Normal {| displayName := Some "GridCell"; propTypes := None |}
    end
  else Normal {| displayName := None; propTypes := None |}.

Definition FloatingLabel_propTypes : list (string * Validator) :=
  [ ("error", PBool);
    ("active", PBool);
    ("disabled", PBool);
    ("covering", PBool);
    ("valued", PIsRequired PBool) ].

Definition FloatingLabel_module (h : Host) : Completion Statics :=
  if notProduction h then
    PropTypes <- loadPropTypes h ;;
    match PropTypes with
    | Some _ =>
        Normal {| displayName := Some "FloatingLabel";
                  propTypes := Some FloatingLabel_propTypes |}
    | None => Normal {| displayName := Some "FloatingLabel"; propTypes := None |}
    end
  else Normal {| displayName := None; propTypes := None |}.

Definition ConditionalPortal_propTypes : list (string * Validator) :=
  [ ("portal", PBool);
    ("portalInto", POneOfType [PString; PFunc; PObject]);
    ("portalIntoId", PString);
    ("visible", PIsRequired PBool);
    ("children", PNode) ].

(** This module assigns no [displayName]. *)
Definition ConditionalPortal_module (h : Host) : Completion Statics :=
  if notProduction h then
    PropTypes <- loadPropTypes h ;;
    match PropTypes with
    | Some _ =>
        Normal {| displayName := None;
                  propTypes := Some ConditionalPortal_propTypes |}
    | None => Normal {| displayName := None; propTypes := None |}
    end
  else Normal {| displayName := None; propTypes := None |}.

Definition Select_propTypes : list (string * Validator) :=
  [ ("id", PIsRequired PString);
    ("style", PObject);
    ("className", PString);
    ("labelStyle", PObject);
    ("labelClassName", PString);
    ("listboxStyle", PObject);
    ("listboxClassName", PString);
    ("label", PNode);
    ("portal", PBool);
    ("portalInto", POneOfType [PString; PObject; PFunc]);
    ("portalIntoId", PString);
    ("labelKey", PString);
    ("valueKey", PString);
    ("getOptionId", PFunc);
    ("getOptionLabel", PFunc);
    ("getOptionValue", PFunc);
    ("getDisplayLabel", PFunc);
    ("disableLeftAddon", PBool);
    ("disableMovementChange", PBool);
    ("theme", POneOf ["none"; "underline"; "filled"; "outline"]);
    ("dense", PBool);
    ("error", PBool);
    ("inline", PBool);
    ("readOnly", PBool);
    ("disabled", PBool);
    ("placeholder", PNode);
    ("underlineDirection", POneOf ["left"; "right"]);
    ("leftChildren", PNode);
    ("rightChildren", PNode);
    ("isLeftAddon", PBool);
    ("isRightAddon", PBool) ].

Definition Select_module (h : Host) : Completion Statics :=
  if notProduction h then
    PropTypes <- loadPropTypes h ;;
    match PropTypes with
    | Some _ =>
        Normal {| displayName := Some "Select";
                  propTypes := Some Select_propTypes |}
    | None => Normal {| displayName := Some "Select"; propTypes := None |}
    end
  else Normal {| displayName := None; propTypes := None |}.

(** The components whose module ends in such a guard. *)
Inductive Component := GSelect | GFloatingLabel | GConditionalPortal | GGridCell.

Definition evaluate (c : Component) : Host -> Completion Statics :=
  match c with
  | GSelect => Select_module
  | GFloatingLabel => FloatingLabel_module
  | GConditionalPortal => ConditionalPortal_module
  | GGridCell => GridCell_module
  end.

End ModuleScope.

(* ================================================================== *)
(** * Select *)
(* ================================================================== *)

Module Select.
Import JS Bem.

(** [Required<T>] and the optional props of [T]. *)
Definition Required (X : Type) : Type := X.
Abbreviation Optional := option.

Section Select.

(** The option type of the listbox and its ToBoolean. *)
Context {ListboxOption : Type}.
Variable option_truthy : ListboxOption -> bool.

Abbreviation GetOptionId := (string -> nat -> string).
Abbreviation GetOptionLabel := (ListboxOption -> string -> Value).
Abbreviation GetOptionValue := (ListboxOption -> string -> Value).
Abbreviation GetDisplayLabel := (option ListboxOption -> string -> bool -> Value).

(** The helpers the defaults name live in [./utils] and [@react-md/utils],
    which are not among the sources: they are taken as parameters. *)
Variable DEFAULT_GET_OPTION_ID : GetOptionId.
Variable DEFAULT_GET_OPTION_LABEL : GetOptionLabel.
Variable DEFAULT_GET_ITEM_VALUE : GetOptionValue.
Variable DEFAULT_GET_DISPLAY_LABEL : GetDisplayLabel.

(** The props picked by [DefaultProps].  With [F := Optional] these are the
    props as a caller provides them, with [F := Required] the props as the
    component function reads them. *)
Record Picked {F : Type -> Type} := {
  portal : F bool;
  dense : F bool;
  disabled : F bool;
  inline : F bool;
  error : F bool;
  underlineDirection : F string;
  theme : F string;
  isLeftAddon : F bool;
  isRightAddon : F bool;
  rightChildren : F Value;
  labelKey : F string;
  valueKey : F string;
  getOptionId : F GetOptionId;
  getOptionLabel : F GetOptionLabel;
  getOptionValue : F GetOptionValue;
  getDisplayLabel : F GetDisplayLabel;
  disableLeftAddon : F bool;
  disableMovementChange : F bool;
}.
Arguments Picked : clear implicits.

Abbreviation DefaultProps := (Picked Required).

Record Props {F : Type -> Type} := {
  id : string;
  onBlur : option nat;
  onFocus : option nat;
  onKeyDown : option nat;
  onClick : option nat;
  forwardedRef : option nat;
  className : option string;
  label : Value;
  labelStyle : option Style;
  labelClassName : option string;
  displayLabelStyle : option Style;
  displayLabelClassName : option string;
  listboxStyle : option Style;
  listboxClassName : option string;
  portalInto : option ConditionalPortal.PortalInto;
  portalIntoId : option string;
  options : list ListboxOption;
  readOnly : option bool;
  placeholder : Value;
  value : Value;
  onChange : option nat;
  leftChildren : Value;
  style : option Style;
  attrs : Attrs;
  picked : Picked F;
}.
Arguments Props : clear implicits.

Abbreviation SelectProps := (Props Optional).
Abbreviation WithDefaultProps := (Props Required).

Definition defaultProps : DefaultProps :=
  {| portal := true;
     theme := "outline";
     dense := false;
     inline := false;
     error := false;
     disabled := false;
     isLeftAddon := true;
     isRightAddon := true;
     underlineDirection := "left";
     rightChildren :=
       VElement "FontIcon" None None None ∅ (VString "arrow_drop_down");
     labelKey := "label";
     valueKey := "value";
     getOptionId := DEFAULT_GET_OPTION_ID;
     getOptionLabel := DEFAULT_GET_OPTION_LABEL;
     getOptionValue := DEFAULT_GET_ITEM_VALUE;
     getDisplayLabel := DEFAULT_GET_DISPLAY_LABEL;
     disableLeftAddon := false;
     disableMovementChange := false |}.

(** The runtime's resolution of [defaultProps]: a prop that is [undefined]
    takes its declared default, any other value is kept. *)
Definition resolve {A} (given : Optional A) (dflt : Required A) : Required A :=
  match given with Some a => a | None => dflt end.

Definition resolvePicked (g : Picked Optional) (d : DefaultProps) : DefaultProps :=
  {| portal := resolve (portal g) (portal d);
     theme := resolve (theme g) (theme d);
     dense := resolve (dense g) (dense d);
     inline := resolve (inline g) (inline d);
     error := resolve (error g) (error d);
     disabled := resolve (disabled g) (disabled d);
     isLeftAddon := resolve (isLeftAddon g) (isLeftAddon d);
     isRightAddon := resolve (isRightAddon g) (isRightAddon d);
     underlineDirection := resolve (underlineDirection g) (underlineDirection d);
     rightChildren := resolve (rightChildren g) (rightChildren d);
     labelKey := resolve (labelKey g) (labelKey d);
     valueKey := resolve (valueKey g) (valueKey d);
     getOptionId := resolve (getOptionId g) (getOptionId d);
     getOptionLabel := resolve (getOptionLabel g) (getOptionLabel d);
     getOptionValue := resolve (getOptionValue g) (getOptionValue d);
     getDisplayLabel := resolve (getDisplayLabel g) (getDisplayLabel d);
     disableLeftAddon := resolve (disableLeftAddon g) (disableLeftAddon d);
     disableMovementChange :=
       resolve (disableMovementChange g) (disableMovementChange d) |}.

Definition withDefaultProps (p : SelectProps) : WithDefaultProps :=
  {| id := id p; onBlur := onBlur p; onFocus := onFocus p;
     onKeyDown := onKeyDown p; onClick := onClick p;
     forwardedRef := forwardedRef p; className := className p;
     label := label p; labelStyle := labelStyle p;
     labelClassName := labelClassName p;
     displayLabelStyle := displayLabelStyle p;
     displayLabelClassName := displayLabelClassName p;
     listboxStyle := listboxStyle p; listboxClassName := listboxClassName p;
     portalInto := portalInto p; portalIntoId := portalIntoId p;
     options := options p; readOnly := readOnly p;
     placeholder := placeholder p; value := value p; onChange := onChange p;
     leftChildren := leftChildren p; style := style p; attrs := attrs p;
     picked := resolvePicked (picked p) defaultProps |}.

(** ** The state cells of one instance *)

(** [visible] is the cell of [useToggle(false)], [focused] the cell of
    [useFocusState], [selectRef] the [useRef] cell holding the node of the
    select element, [fixedStyle] the style kept by [useFixedPositioning]. *)
Record State := {
  visible : bool;
  focused : bool;
  selectRef : option nat;
  fixedStyle : option Style;
}.

Definition initialState : State :=
  {| visible := false; focused := false; selectRef := None;
     fixedStyle := None |}.

(** The functions the component binds to the event props of its tree. *)
Inductive Handler :=
| HandleFocus
| HandleBlur
| HandleKeyDown
| HandleClick
| HandleKeyboardClose
| RefCallback.

(** ** The rendered tree *)

(** [<TextFieldContainer {...props} ... >] *)
Record Container := {
  c_id : string;
  c_style : option Style;
  c_attrs : Attrs;
  c_leftChildren : Value;
  c_rightChildren : Value;
  c_disabled : bool;
  c_error : bool;
  c_dense : bool;
  c_inline : bool;
  c_theme : string;
  c_underlineDirection : string;
  c_isLeftAddon : bool;
  c_isRightAddon : bool;
  c_onFocus : Handler;
  c_onBlur : Handler;
  c_onKeyDown : option Handler;
  c_onClick : option Handler;
  c_ariaHaspopup : string;
  c_ariaDisabled : option bool;
  c_role : string;
  c_tabIndex : option Z;
  c_ref : Handler;
  c_active : bool;
  c_label : bool;
  c_className : string;
}.

(** [<span id={`${id}-value`} ...>] *)
Record ValueSpan := {
  v_id : string;
  v_style : option Style;
  v_className : string;
  v_children : Value;
}.

(** [<Listbox ... />] *)
Record Listbox := {
  l_id : string;
  l_ariaLabelledby : string;
  l_style : Style;
  l_className : option string;
  l_portal : bool;
  l_portalInto : option ConditionalPortal.PortalInto;
  l_portalIntoId : option string;
  l_value : Value;
  l_onChange : option nat;
  l_visible : bool;
  l_temporary : bool;
  l_onRequestClose : Handler;
  l_options : list ListboxOption;
  l_labelKey : string;
  l_valueKey : string;
  l_getOptionId : GetOptionId;
  l_getOptionLabel : GetOptionLabel;
  l_getOptionValue : GetOptionValue;
  l_disableMovementChange : bool;
}.

Record Tree := {
  container : Container;
  floatingLabel : FloatingLabel.FloatingLabelProps;
  valueSpan : ValueSpan;
  listbox : Listbox;
}.

Definition block := bem "rmd-select".

(** [typeof value === "number" || !!value] *)
Definition valued (value : Value) : bool :=
  match value with
  | VNumber _ => true
  | v => truthy v
  end.

(** The memoised display value. *)
Definition displayValue (p : WithDefaultProps) : Value :=
  let d := picked p in
  let found :=
    find (fun o => strict_equal (getOptionValue d o (valueKey d)) (value p))
         (options p) in
  let currentOption :=
    match found with
    | Some o => if option_truthy o then Some o else None
    | None => None
    end in
  getDisplayLabel d currentOption (labelKey d) (negb (disableLeftAddon d)).

(** The component function, on props that went through [defaultProps]. *)
Definition render (p : WithDefaultProps) (st : State) : Tree :=
  let d := picked p in
  let valued := valued (value p) in
  let open := focused st || visible st in
  {| container :=
       {| c_id := id p;
          c_style := style p;
          c_attrs := attrs p;
          c_leftChildren := leftChildren p;
          c_rightChildren := rightChildren d;
          c_disabled := disabled d;
          c_error := error d;
          c_dense := dense d;
          c_inline := inline d;
          c_theme := theme d;
          c_underlineDirection := underlineDirection d;
          c_isLeftAddon := isLeftAddon d;
          c_isRightAddon := isRightAddon d;
          c_onFocus := HandleFocus;
          c_onBlur := HandleBlur;
          c_onKeyDown := if disabled d then None else Some HandleKeyDown;
          c_onClick := if disabled d then None else Some HandleClick;
          c_ariaHaspopup := "listbox";
          c_ariaDisabled := if disabled d then Some true else None;
          c_role := "button";
          c_tabIndex := if disabled d then None else Some 0%Z;
          c_ref := RefCallback;
          c_active := open;
          c_label := truthy (label p);
          c_className :=
            cn [ CStr (Some (block (Some (BModifier
                                [("disabled", VBool (disabled d))])) None));
                 CStr (className p) ] |};
     floatingLabel :=
       {| FloatingLabel.className :=
            Some (cn [ CStr (Some (block (Some (BElement "label")) None));
                       CStr (labelClassName p) ]);
          FloatingLabel.forwardedRef := None;
          FloatingLabel.underline := None;
          FloatingLabel.outline := None;
          FloatingLabel.valued := valued;
          FloatingLabel.dense := Some (dense d);
          FloatingLabel.covering := None;
          FloatingLabel.leftChildren := Some (truthy (leftChildren p));
          FloatingLabel.rightChildren := Some (truthy (rightChildren d));
          FloatingLabel.props :=
            {| FloatingLabel.error := Some (error d);
               FloatingLabel.active := Some (valued && open);
               FloatingLabel.disabled := Some (disabled d);
               FloatingLabel.style := labelStyle p;
               FloatingLabel.children := label p;
               FloatingLabel.others :=
                 <["htmlFor" := AStr (id p)]>
                 (<["floating" := ABool (focused st || valued || visible st)]>
                  (<["component" := AStr "span"]> ∅)) |} |};
     valueSpan :=
       {| v_id := id p +:+ "-value";
          v_style := displayLabelStyle p;
          v_className :=
            cn [ CStr (Some (block (Some (BElement "value"))
                     (Some [ ("disabled", VBool (disabled d));
                             ("readonly", of_bool (readOnly p));
                             ("placeholder",
                                js_and (VBool (negb valued)) (placeholder p));
                             ("placeholder-active",
                                js_and (js_and (VBool (negb valued)) (placeholder p))
                                       (VBool (focused st))) ])));
                 CStr (displayLabelClassName p) ];
          v_children :=
            js_or (displayValue p) (js_and (VBool (negb valued)) (placeholder p)) |};
     listbox :=
       {| l_id := id p +:+ "-listbox";
          l_ariaLabelledby := id p;
          l_style := spread (listboxStyle p) ∪ spread (fixedStyle st);
          l_className := listboxClassName p;
          l_portal := portal d;
          l_portalInto := portalInto p;
          l_portalIntoId := portalIntoId p;
          l_value := value p;
          l_onChange := onChange p;
          l_visible := visible st;
          l_temporary := true;
          l_onRequestClose := HandleKeyboardClose;
          l_options := options p;
          l_labelKey := labelKey d;
          l_valueKey := valueKey d;
          l_getOptionId := getOptionId d;
          l_getOptionLabel := getOptionLabel d;
          l_getOptionValue := getOptionValue d;
          l_disableMovementChange := disableMovementChange d |} |}.

Definition Select (p : SelectProps) (st : State) : Tree :=
  render (withDefaultProps p) st.

(** ** Event handlers *)

(** What a handler does besides updating the state cells of the instance:
    it invokes a callback prop, prevents the default action of its event,
    submits the enclosing form, or calls [focus()] on a node. *)
Inductive Effect :=
| Invoke (callback : nat)
| PreventDefault
| SubmitForm
| FocusNode (node : nat).

(** A key event on the select element: its [key], and whether
    [event.currentTarget.closest("form")] finds a form. *)
Record KeyboardEvent := {
  key : string;
  insideForm : bool;
}.

Definition invoke (callback : option nat) : list Effect :=
  match callback with Some c => [Invoke c] | None => [] end.

(** Modelled from the spec: [useToggle] of [@react-md/utils] is not among
    the sources.  The spec lists "open/closed flags" among the state
    fragments "mutated only through the rendering runtime's state-update
    mechanism" and calls closing a dropdown "just a synchronous state flag
    flip": the second and third results of [useToggle(false)] set the flag
    to [true] and to [false]. *)
Definition show (st : State) : State :=
  {| visible := true; focused := focused st; selectRef := selectRef st;
     fixedStyle := fixedStyle st |}.

(** Modelled from the spec: the third result of [useToggle(false)], the
    "synchronous state flag flip" that closes the dropdown. *)
Definition hide (st : State) : State :=
  {| visible := false; focused := focused st; selectRef := selectRef st;
     fixedStyle := fixedStyle st |}.

Definition handleKeyDown (p : WithDefaultProps) (event : KeyboardEvent)
           (st : State) : State * list Effect :=
  let called := invoke (onKeyDown p) in
  if String.eqb (key event) " " || String.eqb (key event) "ArrowUp"
     || String.eqb (key event) "ArrowDown"
  then (show st, called ++ [PreventDefault])
  else if String.eqb (key event) "Enter"
  then (st, called ++ (if insideForm event then [SubmitForm] else []))
  else (st, called).

Definition handleClick (p : WithDefaultProps) (st : State) : State * list Effect :=
  (show st, invoke (onClick p)).

(** Modelled from the spec: [useFocusState] of the form package is not
    among the sources.  The spec lists "focus flags" among the state
    fragments of an instance; the hook is called with the [onFocus] and
    [onBlur] props (l.209) and its handlers are bound to the select element
    (l.298-299): the focus handler calls the [onFocus] prop, when there is
    one, and sets the flag; the blur handler calls [onBlur] and clears it. *)
Definition handleFocus (p : WithDefaultProps) (st : State) : State * list Effect :=
  ({| visible := visible st; focused := true; selectRef := selectRef st;
      fixedStyle := fixedStyle st |},
   invoke (onFocus p)).

(** Modelled from the spec: the blur handler of [useFocusState]. *)
Definition handleBlur (p : WithDefaultProps) (st : State) : State * list Effect :=
  ({| visible := visible st; focused := false; selectRef := selectRef st;
      fixedStyle := fixedStyle st |},
   invoke (onBlur p)).

(** Whether [node.focus()] moves the focus, [active] being the node that has
    the focus of the document: the select element takes it when it is in the
    tab order (it is rendered with a [tabIndex], that is, not disabled) and
    does not have it already. *)
Definition takesFocus (p : WithDefaultProps) (st : State) (node : nat)
           (active : option nat) : bool :=
  match c_tabIndex (container (render p st)), active with
  | None, _ => false
  | Some _, Some a => negb (Nat.eqb a node)
  | Some _, None => true
  end.

(** [node.focus()] on the select element.  When the focus moves, the focus
    event runs the handler bound as [onFocus] before [focus()] returns. *)
Definition focus (p : WithDefaultProps) (node : nat) (active : option nat)
           (st : State) : State * list Effect :=
  if takesFocus p st node active
  then (fst (handleFocus p st), FocusNode node :: snd (handleFocus p st))
  else (st, [FocusNode node]).

(** [hide()], then [selectRef.current.focus()] when the element is mounted.
    [active] is the node that has the focus of the document when the handler
    runs. *)
Definition handleKeyboardClose (p : WithDefaultProps) (active : option nat)
           (st : State) : State * list Effect :=
  match selectRef st with
  | Some node => focus p node active (hide st)
  | None => (hide st, [])
  end.

(** Whether a node of the document contains another. *)
Variable contains : nat -> nat -> bool.

(** Modelled from the spec: the containment test of the "click-outside
    detection"; a missing element or target contains nothing. *)
Definition containsElement (element target : option nat) : bool :=
  match element, target with
  | Some e, Some t => contains e t
  | _, _ => false
  end.

(** Modelled from the spec: [useCloseOnOutsideClick] of [@react-md/utils] is
    not among the sources.  The spec names "click-outside detection" among
    the listeners of a component: while [enabled], a click on the window
    whose target is not contained in [element] calls [onOutsideClick]. *)
Definition useCloseOnOutsideClick (enabled : bool) (element : option nat)
           (onOutsideClick : State -> State) (target : option nat)
           (st : State) : State :=
  if enabled && negb (containsElement element target)
  then onOutsideClick st
  else st.

(** The events an instance reacts to through the handlers above: a click
    and a key on the select element, the element gaining and losing the
    focus, a click on the window, and the listbox's request to close, which
    comes with the node that has the focus of the document at that time. *)
Inductive Event :=
| Click
| KeyDown (event : KeyboardEvent)
| Focus
| Blur
| WindowClick (target : option nat)
| RequestClose (active : option nat).

(** An event reaches the handler the current tree binds for it. *)
Definition dispatch (p : WithDefaultProps) (e : Event) (st : State)
  : State * list Effect :=
  let tree := render p st in
  match e with
  | Click =>
      match c_onClick (container tree) with
      | Some _ => handleClick p st
      | None => (st, [])
      end
  | KeyDown event =>
      match c_onKeyDown (container tree) with
      | Some _ => handleKeyDown p event st
      | None => (st, [])
      end
  | Focus => handleFocus p st
  | Blur => handleBlur p st
  | WindowClick target =>
      (useCloseOnOutsideClick (visible st) (selectRef st) hide target st, [])
  | RequestClose active => handleKeyboardClose p active st
  end.

(** The two ways a visible listbox is closed: a click outside the select
    element, and the listbox's request to close. *)
Definition closes (e : Event) (st : State) : bool :=
  match e with
  | WindowClick target => negb (containsElement (selectRef st) target)
  | RequestClose _ => true
  | _ => false
  end.

End Select.

Arguments Picked : clear implicits.
Arguments Props : clear implicits.
Arguments Props {ListboxOption} F.

End Select.

(* ================================================================== *)
(** * Sample inputs *)
(* ================================================================== *)

Module Samples.
Import JS Bem.

Definition noCss : GridCell.GridCSSProperties :=
  {| GridCell.rowSpan := None; GridCell.rowStart := None;
     GridCell.rowEnd := None; GridCell.colStart := None;
     GridCell.colEnd := None |}.

(** [<GridCell>x</GridCell>] *)
Definition bareCell : GridCell.GridCellProps :=
  {| GridCell.style := None; GridCell.className := None;
     GridCell.clone := None; GridCell.forwardedRef := None;
     GridCell.children := VString "x"; GridCell.colSpan := None;
     GridCell.base := noCss; GridCell.phone := None; GridCell.tablet := None;
     GridCell.desktop := None; GridCell.largeDesktop := None;
     GridCell.props := ∅ |}.

(** [<GridCell colSpan={3} className="mine">x</GridCell>] *)
Definition span3Cell : GridCell.GridCellProps :=
  {| GridCell.style := None; GridCell.className := Some "mine";
     GridCell.clone := None; GridCell.forwardedRef := None;
     GridCell.children := VString "x"; GridCell.colSpan := Some 3%Z;
     GridCell.base := noCss; GridCell.phone := None; GridCell.tablet := None;
     GridCell.desktop := None; GridCell.largeDesktop := None;
     GridCell.props := ∅ |}.

(** [<GridCell className="rmd-grid__cell--3">x</GridCell>]: no [colSpan],
    and a caller class that is itself a span token. *)
Definition styledCell : GridCell.GridCellProps :=
  {| GridCell.style := None; GridCell.className := Some "rmd-grid__cell--3";
     GridCell.clone := None; GridCell.forwardedRef := None;
     GridCell.children := VString "x"; GridCell.colSpan := None;
     GridCell.base := noCss; GridCell.phone := None; GridCell.tablet := None;
     GridCell.desktop := None; GridCell.largeDesktop := None;
     GridCell.props := ∅ |}.

Definition onDesktop : GridCell.AppSize :=
  {| GridCell.isPhone := false; GridCell.isTablet := false;
     GridCell.isDesktop := true; GridCell.isLargeDesktop := false |}.

Definition plainLabel : FloatingLabel.LabelProps :=
  {| FloatingLabel.error := None; FloatingLabel.active := None;
     FloatingLabel.disabled := None; FloatingLabel.style := None;
     FloatingLabel.children := VString "Name"; FloatingLabel.others := ∅ |}.

(** [<FloatingLabel valued>Name</FloatingLabel>]: a value, and no focus. *)
Definition valuedIdleLabel : FloatingLabel.FloatingLabelProps :=
  {| FloatingLabel.className := None; FloatingLabel.forwardedRef := None;
     FloatingLabel.underline := None; FloatingLabel.outline := None;
     FloatingLabel.valued := true; FloatingLabel.dense := None;
     FloatingLabel.covering := None; FloatingLabel.leftChildren := None;
     FloatingLabel.rightChildren := None; FloatingLabel.props := plainLabel |}.

(** [<FloatingLabel valued={false}>Name</FloatingLabel>] *)
Definition emptyIdleLabel : FloatingLabel.FloatingLabelProps :=
  {| FloatingLabel.className := None; FloatingLabel.forwardedRef := None;
     FloatingLabel.underline := None; FloatingLabel.outline := None;
     FloatingLabel.valued := false; FloatingLabel.dense := None;
     FloatingLabel.covering := None; FloatingLabel.leftChildren := None;
     FloatingLabel.rightChildren := None; FloatingLabel.props := plainLabel |}.

(** [<ConditionalPortal visible>{null}</ConditionalPortal>] *)
Definition inlineNull : ConditionalPortal.ConditionalPortalProps :=
  {| ConditionalPortal.portal := None; ConditionalPortal.portalInto := None;
     ConditionalPortal.portalIntoId := None;
     ConditionalPortal.visible := true;
     ConditionalPortal.children := VNull |}.

(** [<ConditionalPortal portalIntoId="overlays" visible={false}>menu
    </ConditionalPortal>] *)
Definition intoOverlays : ConditionalPortal.ConditionalPortalProps :=
  {| ConditionalPortal.portal := None; ConditionalPortal.portalInto := None;
     ConditionalPortal.portalIntoId := Some "overlays";
     ConditionalPortal.visible := false;
     ConditionalPortal.children :=
       VElement "div" None None None ∅ (VString "menu") |}.

Definition production : ModuleScope.Host :=
  {| ModuleScope.NODE_ENV := Some "production";
     ModuleScope.propTypesResolvable := true |}.

Definition developmentWithoutPropTypes : ModuleScope.Host :=
  {| ModuleScope.NODE_ENV := Some "development";
     ModuleScope.propTypesResolvable := false |}.



(** *** A select over string options *)

Definition optionTruthy (o : string) : bool := negb (String.eqb o "").

Definition sampleGetOptionId : string -> nat -> string :=
  fun baseId index => baseId +:+ "-option-" +:+ number_to_string (Z.of_nat index).

Definition sampleGetOptionLabel : string -> string -> Value :=
  fun o _ => VString o.

Definition sampleGetItemValue : string -> string -> Value :=
  fun o _ => VString o.

Definition sampleGetDisplayLabel : option string -> string -> bool -> Value :=
  fun o _ _ => match o with Some s => VString s | None => VNull end.

Definition exampleOptions : list string :=
  [ "Option 1"; "Option 2"; "Option 3"; "Option 4";
    "Option 5"; "Option 6"; "Option 7"; "Option 8" ].

(** Every prop that has a declared default is left out. *)
Definition nothingPicked : Select.Picked string Select.Optional :=
  {| Select.portal := None; Select.dense := None; Select.disabled := None;
     Select.inline := None; Select.error := None;
     Select.underlineDirection := None; Select.theme := None;
     Select.isLeftAddon := None; Select.isRightAddon := None;
     Select.rightChildren := None; Select.labelKey := None;
     Select.valueKey := None; Select.getOptionId := None;
     Select.getOptionLabel := None; Select.getOptionValue := None;
     Select.getDisplayLabel := None; Select.disableLeftAddon := None;
     Select.disableMovementChange := None |}.

(** [<Select id="custom-select-1" options={options} value={value}
    onChange={handleChange} />], the callback [handleChange] being number 1. *)
Definition exampleSelect (value : string) : Select.Props Select.Optional :=
  {| Select.id := "custom-select-1";
     Select.onBlur := None; Select.onFocus := None;
     Select.onKeyDown := None; Select.onClick := None;
     Select.forwardedRef := None; Select.className := None;
     Select.label := VUndefined; Select.labelStyle := None;
     Select.labelClassName := None; Select.displayLabelStyle := None;
     Select.displayLabelClassName := None; Select.listboxStyle := None;
     Select.listboxClassName := None; Select.portalInto := None;
     Select.portalIntoId := None; Select.options := exampleOptions;
     Select.readOnly := None; Select.placeholder := VUndefined;
     Select.value := VString value; Select.onChange := Some 1;
     Select.leftChildren := VUndefined; Select.style := None;
     Select.attrs := ∅; Select.picked := nothingPicked |}.

(** An instance whose listbox is open, mounted on node 7. *)
Definition openState : Select.State :=
  {| Select.visible := true; Select.focused := false;
     Select.selectRef := Some 7; Select.fixedStyle := None |}.

(** A document in which a node contains only itself. *)
Definition flatDocument : nat -> nat -> bool := Nat.eqb.

End Samples.

(* ================================================================== *)
(** * withRipples *)
(* ================================================================== *)

Module WithRipples.
Import JS.

Section WithRipples.

(** The list of ripples kept by [useRipplesState]; its type is declared in
    [./types.d], which is not among the sources. *)
Context {Ripples : Type}.

(** The result of [useRipplesState(providedProps)]. *)
Record RipplesState := {
  ripples : Ripples;
  setRipples : nat;
  eventHandlers : Attrs;
  disableRipple : bool;
}.

(** The result of [usePressedStates(providedProps)] (its [eventHandlers]
    field is named [pressedEventHandlers] here). *)
Record PressedStates := {
  pressed : bool;
  pressedEventHandlers : Attrs;
}.

(** The two hooks live in [./hooks], which is not among the sources: they
    are taken as parameters. *)
Variable useRipplesState : Attrs -> RipplesState.
Variable usePressedStates : Attrs -> PressedStates.

(** [<RippleContainer ripples setRipples className rippleClassName />] *)
Record RippleContainer := {
  c_ripples : Ripples;
  c_setRipples : nat;
  c_className : option AttrValue;
  c_rippleClassName : option AttrValue;
}.

(** The props the wrapped component receives: the [ripples] prop ([None] is
    [null]) and every other prop. *)
Record Rendered := {
  forwarded : Attrs;
  ripplesProp : option RippleContainer;
}.

(** [...props], after the four ripple options are taken out. *)
Definition rest (providedProps : Attrs) : Attrs :=
  delete "disableRipple"
    (delete "disableProgrammaticRipple"
       (delete "rippleClassName"
          (delete "rippleContainerClassName" providedProps))).

(** A prop as an argument of [cn]: strings and non-zero numbers are kept,
    anything else among these values is skipped. *)
Definition class_arg (a : option AttrValue) : ClassValue :=
  match a with
  | Some (AStr s) => CStr (Some s)
  | Some (ANum n) =>
      if (n =? 0)%Z then CStr None else CStr (Some (number_to_string n))
  | _ => CStr None
  end.

Definition WithRipples (providedProps : Attrs) : Rendered :=
  let props := rest providedProps in
  let state := useRipplesState providedProps in
  if negb (disableRipple state) then
    {| forwarded := delete "ripples" (eventHandlers state ∪ props);
       ripplesProp :=
         Some {| c_ripples := ripples state;
                 c_setRipples := setRipples state;
                 c_className := providedProps !! "rippleContainerClassName";
                 c_rippleClassName := providedProps !! "rippleClassName" |} |}
  else
    let states := usePressedStates providedProps in
    {| forwarded :=
         <["className" :=
             AStr (cn [ class_arg (props !! "className");
                        CObj [("rmd-states--pressed", VBool (pressed states))] ])]>
         (delete "ripples" (pressedEventHandlers states ∪ props));
       ripplesProp := None |}.

(** The handlers spread over the props in the branch taken. *)
Definition handlersInUse (providedProps : Attrs) : Attrs :=
  if disableRipple (useRipplesState providedProps)
  then pressedEventHandlers (usePressedStates providedProps)
  else eventHandlers (useRipplesState providedProps).

End WithRipples.

(** The four props the wrapper takes for itself. *)
Definition isRippleOption (k : string) : bool :=
  String.eqb k "disableRipple" || String.eqb k "disableProgrammaticRipple"
  || String.eqb k "rippleClassName" || String.eqb k "rippleContainerClassName".

(** [WithRipples.displayName], assigned outside production only:
    [`withRipples(${Component.displayName})`]. *)
Definition displayName (h : ModuleScope.Host) (componentDisplayName : option string)
  : option string :=
  if ModuleScope.notProduction h
  then Some ("withRipples("
             +:+ match componentDisplayName with
                 | Some name => name
                 | None => "undefined"
                 end
             +:+ ")")
  else None.

End WithRipples.

(* ================================================================== *)
(** * SelectExample *)
(* ================================================================== *)

Module SelectExample.
Import JS.

(** [Array.from({ length: 8 }, (_, i) => `Option ${i + 1}`)] *)
Definition options : list string :=
  map (fun i => "Option " +:+ number_to_string (Z.of_nat (i + 1))) (seq 0 8).

(** The cells of [useState("")] and [useChecked(false)]. *)
Record State := {
  value : string;
  disableMovementChange : bool;
}.

Definition initialState : State :=
  {| value := ""; disableMovementChange := false |}.

(** [handleChange]: [setValue(nextValue)]. *)
Definition handleChange (nextValue : string) (st : State) : State :=
  {| value := nextValue; disableMovementChange := disableMovementChange st |}.

(** The [renderField] callback: the props it is given, without
    [rightChildren], under the five props the example sets itself.
    [handleChangeRef] is the identity of the [handleChange] callback. *)
Definition renderField (handleChangeRef : nat)
           (props : Select.Props (ListboxOption := string) Select.Optional)
           (st : State) : Select.Props (ListboxOption := string) Select.Optional :=
  let g := Select.picked props in
  {| Select.id := "custom-select-1";
     Select.onBlur := Select.onBlur props;
     Select.onFocus := Select.onFocus props;
     Select.onKeyDown := Select.onKeyDown props;
     Select.onClick := Select.onClick props;
     Select.forwardedRef := Select.forwardedRef props;
     Select.className := Select.className props;
     Select.label := Select.label props;
     Select.labelStyle := Select.labelStyle props;
     Select.labelClassName := Select.labelClassName props;
     Select.displayLabelStyle := Select.displayLabelStyle props;
     Select.displayLabelClassName := Select.displayLabelClassName props;
     Select.listboxStyle := Select.listboxStyle props;
     Select.listboxClassName := Select.listboxClassName props;
     Select.portalInto := Select.portalInto props;
     Select.portalIntoId := Select.portalIntoId props;
     Select.options := options;
     Select.readOnly := Select.readOnly props;
     Select.placeholder := Select.placeholder props;
     Select.value := VString (value st);
     Select.onChange := Some handleChangeRef;
     Select.leftChildren := Select.leftChildren props;
     Select.style := Select.style props;
     Select.attrs := Select.attrs props;
     Select.picked :=
       {| Select.portal := Select.portal g;
          Select.dense := Select.dense g;
          Select.disabled := Select.disabled g;
          Select.inline := Select.inline g;
          Select.error := Select.error g;
          Select.underlineDirection := Select.underlineDirection g;
          Select.theme := Select.theme g;
          Select.isLeftAddon := Select.isLeftAddon g;
          Select.isRightAddon := Select.isRightAddon g;
          Select.rightChildren := None;
          Select.labelKey := Select.labelKey g;
          Select.valueKey := Select.valueKey g;
          Select.getOptionId := Select.getOptionId g;
          Select.getOptionLabel := Select.getOptionLabel g;
          Select.getOptionValue := Select.getOptionValue g;
          Select.getDisplayLabel := Select.getDisplayLabel g;
          Select.disableLeftAddon := Select.disableLeftAddon g;
          Select.disableMovementChange := Some (disableMovementChange st) |} |}.

End SelectExample.

(* ================================================================== *)
(** * Further vocabulary *)
(* ================================================================== *)

Module Support.
Import JS.

(** [isValidElement]. *)
Definition isValidElement (v : Value) : bool :=
  match v with
  | VElement _ _ _ _ _ _ => true
  | _ => false
  end.

(** A cell's props with another [forwardedRef] and other remaining
    attributes. *)
Definition withOwn (p : GridCell.GridCellProps) (r : option nat) (a : Attrs)
  : GridCell.GridCellProps :=
  {| GridCell.style := GridCell.style p;
     GridCell.className := GridCell.className p;
     GridCell.clone := GridCell.clone p;
     GridCell.forwardedRef := r;
     GridCell.children := GridCell.children p;
     GridCell.colSpan := GridCell.colSpan p;
     GridCell.base := GridCell.base p;
     GridCell.phone := GridCell.phone p;
     GridCell.tablet := GridCell.tablet p;
     GridCell.desktop := GridCell.desktop p;
     GridCell.largeDesktop := GridCell.largeDesktop p;
     GridCell.props := a |}.

(** A cell's props with another [clone] flag. *)
Definition withClone (p : GridCell.GridCellProps) (c : option bool)
  : GridCell.GridCellProps :=
  {| GridCell.style := GridCell.style p;
     GridCell.className := GridCell.className p;
     GridCell.clone := c;
     GridCell.forwardedRef := GridCell.forwardedRef p;
     GridCell.children := GridCell.children p;
     GridCell.colSpan := GridCell.colSpan p;
     GridCell.base := GridCell.base p;
     GridCell.phone := GridCell.phone p;
     GridCell.tablet := GridCell.tablet p;
     GridCell.desktop := GridCell.desktop p;
     GridCell.largeDesktop := GridCell.largeDesktop p;
     GridCell.props := GridCell.props p |}.

(** Whether a string holds a white-space code unit. *)
Fixpoint has_white_space (s : string) : bool :=
  match s with
  | EmptyString => false
  | String c r => is_white_space c || has_white_space r
  end.

(** The name a guarded module gives its component, when it gives one. *)
Definition assignedName (c : ModuleScope.Component) : option string :=
  match c with
  | ModuleScope.GSelect => Some "Select"
  | ModuleScope.GFloatingLabel => Some "FloatingLabel"
  | ModuleScope.GConditionalPortal => None
  | ModuleScope.GGridCell => Some "GridCell"
  end.

(** The validators a guarded module declares. *)
Definition declared (c : ModuleScope.Component)
  : list (string * ModuleScope.Validator) :=
  match c with
  | ModuleScope.GSelect => ModuleScope.Select_propTypes
  | ModuleScope.GFloatingLabel => ModuleScope.FloatingLabel_propTypes
  | ModuleScope.GConditionalPortal => ModuleScope.ConditionalPortal_propTypes
  | ModuleScope.GGridCell => ModuleScope.GridCell_propTypes
  end.

(** A number the host represents exactly and prints as its decimal
    numeral. *)
Definition safeInteger (x : option Z) : Prop :=
  match x with
  | Some n => (Z.abs n <= MAX_SAFE_INTEGER)%Z
  | None => True
  end.

(** The row end of a cell that spans [n] rows. *)
Definition spanOf (n : Z) : option CssValue :=
  Some (CssStr ("span " +:+ number_to_string n)).

(** The tokens of the select's value element. *)
Definition valueToken : string := "rmd-select__value".

(** Further modifier tokens of the floating label. *)
Definition denseToken : string := "rmd-floating-label--dense".
Definition coveringToken : string := "rmd-floating-label--covering".
Definition outlineActiveToken : string := "rmd-floating-label--outline-active".
Definition underlineLeftOffsetToken : string :=
  "rmd-floating-label--underline-left-offset".

(** The keys that open the listbox. *)
Definition opensListbox (key : string) : bool :=
  String.eqb key " " || String.eqb key "ArrowUp" || String.eqb key "ArrowDown".

(** A token, when a condition holds. *)
Definition tokenIf (condition : bool) (token : string) : list string :=
  if condition then [token] else [].

(** The label floats: it is active or has a value. *)
Definition floats (p : FloatingLabel.FloatingLabelProps) : bool :=
  FloatingLabel.activeFlag p || FloatingLabel.valued p.

End Support.

(* ================================================================== *)
(** * Components as programs over their host *)
(* ================================================================== *)

Module Runtime.
Import JS.

(** What a component function may ask of its host while it renders: the
    hooks that are called in these sources and, for anything else a render
    could read (a global, the clock, a random number, the document), an
    ambient read. *)
Inductive Hook : Type -> Type :=
| useAppSizeContext : Hook GridCell.AppSize
| useToggle (defaultToggled : bool) : Hook bool
| useFocusState (onBlur onFocus : option nat) : Hook bool
| useRef : Hook (option nat)
| useCloseOnOutsideClick (enabled : bool) (element : option nat) : Hook unit
| useFixedPositioning : Hook (option Style)
| ambient (name : string) : Hook Value.

(** A render: a result, or a question to the host and what is done with the
    answer. *)
Inductive Render (A : Type) : Type :=
| Done (a : A)
| Ask {X : Type} (h : Hook X) (k : X -> Render A).
Arguments Done {A} a.
Arguments Ask {A X} h k.

(** A host answers every question. *)
Definition Host : Type := forall X : Type, Hook X -> X.

Fixpoint run {A : Type} (host : Host) (r : Render A) : A :=
  match r with
  | Done a => a
  | Ask h k => run host (k (host _ h))
  end.

(** GridCell asks for the app size (l.109) and for nothing else. *)
Definition GridCell (p : GridCell.GridCellProps) : Render Value :=
  Ask useAppSizeContext (fun ctx => Done (GridCell.GridCell p ctx)).

(** FloatingLabel and ConditionalPortal call no hook. *)
Definition FloatingLabel (p : FloatingLabel.FloatingLabelProps)
  : Render FloatingLabel.LabelElement :=
  Done (FloatingLabel.FloatingLabel p).

Definition ConditionalPortal (p : ConditionalPortal.ConditionalPortalProps)
  : Render ConditionalPortal.Output :=
  Done (ConditionalPortal.ConditionalPortal p).

Section Select.

Context {ListboxOption : Type}.
Variable option_truthy : ListboxOption -> bool.
Variable DEFAULT_GET_OPTION_ID : string -> nat -> string.
Variable DEFAULT_GET_OPTION_LABEL : ListboxOption -> string -> Value.
Variable DEFAULT_GET_ITEM_VALUE : ListboxOption -> string -> Value.
Variable DEFAULT_GET_DISPLAY_LABEL : option ListboxOption -> string -> bool -> Value.

(** Select asks, in this order (l.208-258), for the toggle, the focus
    state, the ref to its element, the outside-click listener and the fixed
    positioning; [useMemo] and [useCallback] only cache what the function
    computes. *)
Definition Select (p : Select.Props (ListboxOption := ListboxOption) Select.Optional)
  : Render (Select.Tree (ListboxOption := ListboxOption)) :=
  Ask (useToggle false) (fun visible =>
  Ask (useFocusState (Select.onBlur p) (Select.onFocus p)) (fun focused =>
  Ask useRef (fun current =>
  Ask (useCloseOnOutsideClick visible current) (fun _ =>
  Ask useFixedPositioning (fun fixedStyle =>
  Done (Select.Select option_truthy DEFAULT_GET_OPTION_ID
          DEFAULT_GET_OPTION_LABEL DEFAULT_GET_ITEM_VALUE
          DEFAULT_GET_DISPLAY_LABEL p
          {| Select.visible := visible;
             Select.focused := focused;
             Select.selectRef := current;
             Select.fixedStyle := fixedStyle |})))))).

End Select.

(** Two hosts hold equal context values. *)
Definition sameContext (h1 h2 : Host) : Prop :=
  GridCell.sameContext (h1 _ useAppSizeContext) (h2 _ useAppSizeContext).

(** Two hosts hold equal state for an instance: the same flags, the same
    ref, and the same positioning style key by key. *)
Definition sameState (h1 h2 : Host) : Prop :=
  (forall b, h1 _ (useToggle b) = h2 _ (useToggle b))
  /\ (forall onBlur onFocus,
         h1 _ (useFocusState onBlur onFocus) = h2 _ (useFocusState onBlur onFocus))
  /\ h1 _ useRef = h2 _ useRef
  /\ sameStyle (h1 _ useFixedPositioning) (h2 _ useFixedPositioning).

(** A render that is not a function of props, state and context: it shows
    the time it reads from its host. *)
Definition stamped : Render Value :=
  Ask (ambient "Date.now") (fun now => Done (VElement "time" None None None ∅ now)).

End Runtime.

(* ================================================================== *)
(** * Further sample inputs *)
(* ================================================================== *)

Module MoreSamples.
Import JS.

Definition onPhone : GridCell.AppSize :=
  {| GridCell.isPhone := true; GridCell.isTablet := false;
     GridCell.isDesktop := false; GridCell.isLargeDesktop := false |}.

(** [<GridCell rowSpan={2} phone={{ rowEnd: 5 }}>x</GridCell>] *)
Definition stackedCell : GridCell.GridCellProps :=
  {| GridCell.style := None; GridCell.className := None;
     GridCell.clone := None; GridCell.forwardedRef := None;
     GridCell.children := VString "x"; GridCell.colSpan := None;
     GridCell.base :=
       {| GridCell.rowSpan := Some 2%Z; GridCell.rowStart := None;
          GridCell.rowEnd := None; GridCell.colStart := None;
          GridCell.colEnd := None |};
     GridCell.phone :=
       Some {| GridCell.rowSpan := None; GridCell.rowStart := None;
               GridCell.rowEnd := Some (CssNum 5); GridCell.colStart := None;
               GridCell.colEnd := None |};
     GridCell.tablet := None; GridCell.desktop := None;
     GridCell.largeDesktop := None; GridCell.props := ∅ |}.

(** [<GridCell style={{ gridRowStart: "auto" }} rowStart={2}>x</GridCell>] *)
Definition restyledCell : GridCell.GridCellProps :=
  {| GridCell.style := Some {[ "gridRowStart" := Some (CssStr "auto") ]};
     GridCell.className := None;
     GridCell.clone := None; GridCell.forwardedRef := None;
     GridCell.children := VString "x"; GridCell.colSpan := None;
     GridCell.base :=
       {| GridCell.rowSpan := None; GridCell.rowStart := Some (CssNum 2);
          GridCell.rowEnd := None; GridCell.colStart := None;
          GridCell.colEnd := None |};
     GridCell.phone := None; GridCell.tablet := None; GridCell.desktop := None;
     GridCell.largeDesktop := None; GridCell.props := ∅ |}.

(** [<section style={{ color: "blue" }} className="card" ref={4} title="t">
    body</section>] *)
Definition card : Value :=
  VElement "section" (Some {[ "color" := Some (CssStr "blue") ]})
    (Some "card") (Some 4) {[ "title" := AStr "t" ]} (VString "body").

(** [<GridCell clone colSpan={3} id="cell" ref={9}>{card}</GridCell>] *)
Definition clonedCell : GridCell.GridCellProps :=
  {| GridCell.style := None; GridCell.className := None;
     GridCell.clone := Some true; GridCell.forwardedRef := Some 9;
     GridCell.children := card; GridCell.colSpan := Some 3%Z;
     GridCell.base := Samples.noCss;
     GridCell.phone := None; GridCell.tablet := None; GridCell.desktop := None;
     GridCell.largeDesktop := None;
     GridCell.props := {[ "id" := AStr "cell" ]} |}.

(** [<GridCell clone>x</GridCell>]: nothing to clone into. *)
Definition textCloneCell : GridCell.GridCellProps :=
  {| GridCell.style := None; GridCell.className := None;
     GridCell.clone := Some true; GridCell.forwardedRef := None;
     GridCell.children := VString "x"; GridCell.colSpan := None;
     GridCell.base := Samples.noCss;
     GridCell.phone := None; GridCell.tablet := None; GridCell.desktop := None;
     GridCell.largeDesktop := None; GridCell.props := ∅ |}.

(** [<FloatingLabel valued outline underline leftChildren>Name
    </FloatingLabel>] *)
Definition outlinedLabel : FloatingLabel.FloatingLabelProps :=
  {| FloatingLabel.className := None; FloatingLabel.forwardedRef := None;
     FloatingLabel.underline := Some true; FloatingLabel.outline := Some true;
     FloatingLabel.valued := true; FloatingLabel.dense := None;
     FloatingLabel.covering := None; FloatingLabel.leftChildren := Some true;
     FloatingLabel.rightChildren := None;
     FloatingLabel.props := Samples.plainLabel |}.

(** The same label with a right addon, an error and a style. *)
Definition outlinedLabel' : FloatingLabel.FloatingLabelProps :=
  {| FloatingLabel.className := None; FloatingLabel.forwardedRef := Some 3;
     FloatingLabel.underline := Some true; FloatingLabel.outline := Some true;
     FloatingLabel.valued := true; FloatingLabel.dense := None;
     FloatingLabel.covering := None; FloatingLabel.leftChildren := Some true;
     FloatingLabel.rightChildren := Some true;
     FloatingLabel.props :=
       {| FloatingLabel.error := Some true; FloatingLabel.active := None;
          FloatingLabel.disabled := Some true;
          FloatingLabel.style := Some {[ "color" := Some (CssStr "red") ]};
          FloatingLabel.children := VString "Name";
          FloatingLabel.others := ∅ |} |}.

(** Children that stay where they are, shown or hidden. *)
Definition inlineShown : ConditionalPortal.ConditionalPortalProps :=
  {| ConditionalPortal.portal := Some false;
     ConditionalPortal.portalInto := None;
     ConditionalPortal.portalIntoId := None;
     ConditionalPortal.visible := true;
     ConditionalPortal.children := VString "menu" |}.

Definition inlineHidden : ConditionalPortal.ConditionalPortalProps :=
  {| ConditionalPortal.portal := Some false;
     ConditionalPortal.portalInto := None;
     ConditionalPortal.portalIntoId := None;
     ConditionalPortal.visible := false;
     ConditionalPortal.children := VString "menu" |}.

(** The example select, disabled, with click and key callbacks 5 and 6. *)
Definition disabledSelect : Select.Props (ListboxOption := string) Select.Required :=
  {| Select.id := "custom-select-1";
     Select.onBlur := None; Select.onFocus := None;
     Select.onKeyDown := Some 6; Select.onClick := Some 5;
     Select.forwardedRef := None; Select.className := Some "wide";
     Select.label := VString "Pick"; Select.labelStyle := None;
     Select.labelClassName := None; Select.displayLabelStyle := None;
     Select.displayLabelClassName := None; Select.listboxStyle := None;
     Select.listboxClassName := None; Select.portalInto := None;
     Select.portalIntoId := None; Select.options := Samples.exampleOptions;
     Select.readOnly := None; Select.placeholder := VString "Choose";
     Select.value := VString ""; Select.onChange := Some 1;
     Select.leftChildren := VUndefined; Select.style := None;
     Select.attrs := ∅;
     Select.picked :=
       {| Select.portal := true; Select.dense := false;
          Select.disabled := true; Select.inline := false;
          Select.error := false; Select.underlineDirection := "left";
          Select.theme := "outline"; Select.isLeftAddon := true;
          Select.isRightAddon := true; Select.rightChildren := VNull;
          Select.labelKey := "label"; Select.valueKey := "value";
          Select.getOptionId := Samples.sampleGetOptionId;
          Select.getOptionLabel := Samples.sampleGetOptionLabel;
          Select.getOptionValue := Samples.sampleGetItemValue;
          Select.getDisplayLabel := Samples.sampleGetDisplayLabel;
          Select.disableLeftAddon := false;
          Select.disableMovementChange := false |} |}.

(** The same select, enabled, holding the given value. *)
Definition enabledSelect (value : Value)
  : Select.Props (ListboxOption := string) Select.Required :=
  {| Select.id := "custom-select-1";
     Select.onBlur := None; Select.onFocus := None;
     Select.onKeyDown := Some 6; Select.onClick := Some 5;
     Select.forwardedRef := None; Select.className := Some "wide";
     Select.label := VString "Pick"; Select.labelStyle := None;
     Select.labelClassName := None; Select.displayLabelStyle := None;
     Select.displayLabelClassName := None; Select.listboxStyle := None;
     Select.listboxClassName := None; Select.portalInto := None;
     Select.portalIntoId := None; Select.options := Samples.exampleOptions;
     Select.readOnly := None; Select.placeholder := VString "Choose";
     Select.value := value; Select.onChange := Some 1;
     Select.leftChildren := VUndefined; Select.style := None;
     Select.attrs := ∅;
     Select.picked :=
       {| Select.portal := true; Select.dense := false;
          Select.disabled := false; Select.inline := false;
          Select.error := false; Select.underlineDirection := "left";
          Select.theme := "outline"; Select.isLeftAddon := true;
          Select.isRightAddon := true; Select.rightChildren := VNull;
          Select.labelKey := "label"; Select.valueKey := "value";
          Select.getOptionId := Samples.sampleGetOptionId;
          Select.getOptionLabel := Samples.sampleGetOptionLabel;
          Select.getOptionValue := Samples.sampleGetItemValue;
          Select.getDisplayLabel := Samples.sampleGetDisplayLabel;
          Select.disableLeftAddon := false;
          Select.disableMovementChange := false |} |}.

(** An enabled select holding "Option 2", with blur and focus callbacks 3
    and 4. *)
Definition listeningSelect : Select.Props (ListboxOption := string) Select.Required :=
  {| Select.id := "custom-select-1";
     Select.onBlur := Some 3; Select.onFocus := Some 4;
     Select.onKeyDown := Some 6; Select.onClick := Some 5;
     Select.forwardedRef := None; Select.className := None;
     Select.label := VString "Pick"; Select.labelStyle := None;
     Select.labelClassName := None; Select.displayLabelStyle := None;
     Select.displayLabelClassName := None; Select.listboxStyle := None;
     Select.listboxClassName := None; Select.portalInto := None;
     Select.portalIntoId := None; Select.options := Samples.exampleOptions;
     Select.readOnly := None; Select.placeholder := VString "Choose";
     Select.value := VString "Option 2"; Select.onChange := Some 1;
     Select.leftChildren := VUndefined; Select.style := None;
     Select.attrs := ∅;
     Select.picked :=
       {| Select.portal := true; Select.dense := false;
          Select.disabled := false; Select.inline := false;
          Select.error := false; Select.underlineDirection := "left";
          Select.theme := "outline"; Select.isLeftAddon := true;
          Select.isRightAddon := true; Select.rightChildren := VNull;
          Select.labelKey := "label"; Select.valueKey := "value";
          Select.getOptionId := Samples.sampleGetOptionId;
          Select.getOptionLabel := Samples.sampleGetOptionLabel;
          Select.getOptionValue := Samples.sampleGetItemValue;
          Select.getDisplayLabel := Samples.sampleGetDisplayLabel;
          Select.disableLeftAddon := false;
          Select.disableMovementChange := false |} |}.

(** A host on a screen of the given size, at a given time, that holds an
    open, unfocused instance mounted on node 7. *)
Definition hostAt (size : GridCell.AppSize) (now : Z) : Runtime.Host :=
  fun X h =>
    match h in Runtime.Hook X return X with
    | Runtime.useAppSizeContext => size
    | Runtime.useToggle _ => true
    | Runtime.useFocusState _ _ => false
    | Runtime.useRef => Some 7
    | Runtime.useCloseOnOutsideClick _ _ => tt
    | Runtime.useFixedPositioning => None
    | Runtime.ambient _ => VNumber now
    end.

Definition spaceKey : Select.KeyboardEvent :=
  {| Select.key := " "; Select.insideForm := true |}.

Definition enterKey : Select.KeyboardEvent :=
  {| Select.key := "Enter"; Select.insideForm := true |}.

(** *** A button wrapped by [withRipples] *)

(** Hooks that follow the [disableRipple] prop, report a press, and bind a
    mouse handler each. *)
Definition sampleRipplesState (props : Attrs)
  : WithRipples.RipplesState (Ripples := list nat) :=
  {| WithRipples.ripples := [];
     WithRipples.setRipples := 1;
     WithRipples.eventHandlers := {[ "onMouseDown" := AHandler 2 ]};
     WithRipples.disableRipple :=
       match props !! "disableRipple" with
       | Some (ABool b) => b
       | _ => false
       end |}.

Definition samplePressedStates (props : Attrs) : WithRipples.PressedStates :=
  {| WithRipples.pressed := true;
     WithRipples.pressedEventHandlers := {[ "onMouseDown" := AHandler 3 ]} |}.

(** [<Button disableRipple rippleClassName="wave" className="big"
    type="submit" />] *)
Definition quietButton : Attrs :=
  <["disableRipple" := ABool true]>
  (<["rippleClassName" := AStr "wave"]>
   (<["className" := AStr "big"]>
    (<["type" := AStr "submit"]> ∅))).

End MoreSamples.

(* ================================================================== *)
(** * Class strings and their token lists *)
(* ================================================================== *)

Module ClassFacts.
Import JS Bem.

Lemma append_empty_r s : s +:+ "" = s.
Proof. induction s as [|c s IH]; simpl; [reflexivity | now rewrite IH]. Qed.

Lemma append_assoc a b c : (a +:+ b) +:+ c = a +:+ (b +:+ c).
Proof. induction a as [|x a IH]; simpl; [reflexivity | now rewrite IH]. Qed.

Lemma no_separator_append a b :
  no_separator (a +:+ b) = no_separator a && no_separator b.
Proof.
  induction a as [|x a IH]; simpl; [reflexivity |].
  rewrite IH. now rewrite andb_assoc.
Qed.

Lemma append_nonempty_l a b : a <> "" -> a +:+ b <> "".
Proof. destruct a; simpl; [congruence | discriminate]. Qed.

Lemma append_inv_head a b c : a +:+ b = a +:+ c -> b = c.
Proof. induction a as [|x a IH]; simpl; [auto | intros [= H]; auto]. Qed.

Lemma flush_nonempty s : s <> "" -> flush s = [s].
Proof. destruct s; [congruence | reflexivity]. Qed.

(** A word without separators extends the token being read. *)
Lemma split_class_word t : forall cur,
  no_separator t = true -> split_class t cur = flush (cur +:+ t).
Proof.
  induction t as [|c t IH]; intros cur H; simpl in *.
  - now rewrite append_empty_r.
  - apply andb_prop in H as [Hc Ht].
    destruct (is_class_separator c); [discriminate |].
    rewrite IH by assumption. now rewrite append_assoc.
Qed.

(** A space ends the token being read. *)
Lemma split_class_space a b : forall cur,
  split_class (a +:+ String " " b) cur = split_class a cur ++ classList b.
Proof.
  induction a as [|c a IH]; intros cur; simpl.
  - reflexivity.
  - destruct (is_class_separator c).
    + rewrite IH. now rewrite app_assoc.
    + apply IH.
Qed.

Lemma classList_word t : no_separator t = true -> t <> "" -> classList t = [t].
Proof.
  intros Hs Hne. unfold classList. rewrite split_class_word by assumption.
  simpl. now apply flush_nonempty.
Qed.

Lemma classList_space a b :
  classList (a +:+ String " " b) = classList a ++ classList b.
Proof. unfold classList at 1 2. apply (split_class_space a b ""). Qed.

Lemma classList_empty : classList "" = [].
Proof. reflexivity. Qed.

(** The tokens of [cn(a, c)]: those of [a], then those of [c]. *)
Lemma classList_cn2 a c :
  classList (cn [CStr (Some a); CStr c])
  = classList a ++ classList (match c with Some s => s | None => "" end).
Proof.
  unfold cn; simpl.
  destruct c as [s|]; simpl.
  - destruct (String.eqb_spec a ""), (String.eqb_spec s ""); subst; simpl.
    + reflexivity.
    + reflexivity.
    + now rewrite app_nil_r.
    + destruct s; [congruence |]. apply classList_space.
  - destruct (String.eqb_spec a ""); subst; simpl; [reflexivity |].
    now rewrite app_nil_r.
Qed.

Lemma classList_fold base m : forall s,
  no_separator base = true -> wordKeys m ->
  classList
    (fold_left
       (fun s (kv : string * Value) =>
          if truthy (snd kv) then s +:+ " " +:+ base +:+ "--" +:+ fst kv else s)
       m s)
  = classList s ++ modifierTokens base m.
Proof.
  unfold modifierTokens.
  induction m as [|[k v] m IH]; intros s Hb Hk; simpl.
  - now rewrite app_nil_r.
  - inversion Hk as [|? ? Hk1 Hk2]; subst. simpl in Hk1.
    rewrite IH by assumption.
    destruct (truthy v); simpl; [| reflexivity].
    rewrite classList_space.
    pose proof (classList_word (base +:+ "--" +:+ k)) as W. simpl in W.
    rewrite W.
    + now rewrite <- app_assoc.
    + pose proof (no_separator_append base ("--" +:+ k)) as A. simpl in A.
      rewrite A, Hb, Hk1. reflexivity.
    + destruct base; simpl; discriminate.
Qed.

(** The tokens of a modified base: the base, then one token per truthy
    modifier, in key order. *)
Lemma classList_modify base m :
  no_separator base = true -> base <> "" -> wordKeys m ->
  classList (modify base (Some m)) = base :: modifierTokens base m.
Proof.
  intros Hb Hne Hk. unfold modify.
  rewrite classList_fold by assumption.
  now rewrite classList_word.
Qed.

Lemma in_modifierTokens base m k :
  In (base +:+ "--" +:+ k) (modifierTokens base m)
  <-> exists v, In (k, v) m /\ truthy v = true.
Proof.
  unfold modifierTokens. rewrite in_map_iff. split.
  - intros [[k' v] [Heq Hin]]. simpl in Heq.
    apply append_inv_head in Heq. simpl in Heq. injection Heq as ->.
    apply filter_In in Hin as [Hin Ht]. eauto.
  - intros [v [Hin Ht]]. exists (k, v). split; [reflexivity |].
    apply filter_In. auto.
Qed.

(** ** Decimal numerals *)

Lemma uint_no_separator d : no_separator (NilEmpty.string_of_uint d) = true.
Proof. induction d; simpl; auto. Qed.

Lemma number_to_string_no_separator n : no_separator (number_to_string n) = true.
Proof.
  unfold number_to_string, NilZero.string_of_int, NilZero.string_of_uint.
  destruct (Z.to_int n) as [d|d]; destruct d; simpl;
    auto using uint_no_separator.
Qed.

Lemma template_of_no_separator x : no_separator (template_of x) = true.
Proof. destruct x; [apply number_to_string_no_separator | reflexivity]. Qed.

End ClassFacts.

(* ================================================================== *)
(** * GridCell: class tokens and responsive overrides *)
(* ================================================================== *)

Module GridCellFacts.
Import JS Bem GridCell ClassFacts.

Lemma block_cell_tokens (span : option Z) :
  classList (block (Some (BElement "cell"))
               (Some [(template_of span, of_number span)]))
  = cellToken :: modifierTokens cellToken [(template_of span, of_number span)].
Proof.
  unfold block, bem. simpl String.append.
  apply classList_modify.
  - reflexivity.
  - discriminate.
  - constructor; [apply template_of_no_separator | constructor].
Qed.

(** The class list of a rendered cell: the cell token, the span token when
    [colSpan] is truthy, then whatever the caller supplied. *)
Lemma GridCell_classList p ctx :
  classList (class_of (GridCell p ctx))
  = cellToken
      :: modifierTokens cellToken
           [(template_of (colSpan p), of_number (colSpan p))]
      ++ callerTokens p.
Proof.
  unfold GridCell, callerTokens.
  destruct (truthy_bool (clone p)); [destruct (children p) |]; simpl class_of;
    unfold cellClassName; rewrite ?classList_cn2, ?block_cell_tokens;
    unfold orEmpty; simpl; rewrite <- ?app_assoc, ?app_nil_r; reflexivity.
Qed.

Example span3_class :
  class_of (GridCell Samples.span3Cell Samples.onDesktop)
  = "rmd-grid__cell rmd-grid__cell--3 mine".
Proof. reflexivity. Qed.

Example bare_class :
  class_of (GridCell Samples.bareCell Samples.onDesktop) = "rmd-grid__cell".
Proof. reflexivity. Qed.

Example span3_tokens :
  classList (class_of (GridCell Samples.span3Cell Samples.onDesktop))
  = ["rmd-grid__cell"; "rmd-grid__cell--3"; "mine"].
Proof. reflexivity. Qed.

Lemma modifierTokens_span_truthy n :
  n <> 0%Z ->
  modifierTokens cellToken [(template_of (Some n), of_number (Some n))]
  = [spanToken n].
Proof.
  intros Hn. unfold modifierTokens. simpl.
  destruct (Z.eqb_spec n 0); [contradiction | reflexivity].
Qed.

Lemma modifierTokens_span_falsy span :
  span = None \/ span = Some 0%Z ->
  modifierTokens cellToken [(template_of span, of_number span)] = [].
Proof. intros [-> | ->]; reflexivity. Qed.

(** C1, as stated, fails: without a [colSpan], a span token can still be in
    the class list, because the caller's [className] is appended as it is. *)
Lemma GridCell_span_token_absent_counterexample :
  ~ (forall p ctx,
        colSpan p = None \/ colSpan p = Some 0%Z ->
        forall t, In t (classList (class_of (GridCell p ctx))) ->
                  isSpanToken t = false).
Proof.
  intros claim.
  specialize (claim Samples.styledCell Samples.onDesktop (or_introl eq_refl)
                    "rmd-grid__cell--3").
  assert (H : isSpanToken "rmd-grid__cell--3" = false)
    by (apply claim; vm_compute; auto).
  discriminate H.
Qed.

(** C1 (amended): for a positive integer [colSpan] [n] (within the range
    of exactly represented integers) the class list of the rendered cell
    contains the token [rmd-grid__cell--n]; when [colSpan] is
    not provided or is 0 the component adds no span token: the class list is
    [rmd-grid__cell] followed by the caller's tokens, so a span token is
    present only if the caller's [className] (or, when cloning, the child's)
    carries it. *)
Theorem GridCell_span_token p ctx :
  (forall n, colSpan p = Some n -> (0 < n <= MAX_SAFE_INTEGER)%Z ->
             In (spanToken n) (classList (class_of (GridCell p ctx))))
  /\ (colSpan p = None \/ colSpan p = Some 0%Z ->
      classList (class_of (GridCell p ctx)) = cellToken :: callerTokens p
      /\ forall t, In t (classList (class_of (GridCell p ctx))) ->
                   isSpanToken t = true -> In t (callerTokens p)).
Proof.
  rewrite GridCell_classList. split.
  - intros n Hn Hpos. rewrite Hn, modifierTokens_span_truthy by lia.
    simpl. auto.
  - intros H. rewrite modifierTokens_span_falsy by assumption. simpl.
    split; [reflexivity |].
    intros t [<- | Hin] Hspan; [discriminate Hspan | assumption].
Qed.

Lemma GridCell_span_token_witness :
  In "rmd-grid__cell--3"
     (classList (class_of (GridCell Samples.span3Cell Samples.onDesktop)))
  /\ classList (class_of (GridCell Samples.bareCell Samples.onDesktop))
     = ["rmd-grid__cell"].
Proof.
  split.
  - apply (proj1 (GridCell_span_token Samples.span3Cell Samples.onDesktop) 3%Z).
    + reflexivity.
    + unfold MAX_SAFE_INTEGER. lia.
  - apply (proj2 (GridCell_span_token Samples.bareCell Samples.onDesktop)).
    left. reflexivity.
Defined.

(** ** Responsive overrides *)

Lemma media_firstTruthy p ctx : media p ctx = firstTruthy (candidates p ctx).
Proof.
  unfold media, candidates, and_then, or_else. simpl.
  destruct (isPhone ctx), (phone p), (isTablet ctx), (tablet p),
    (isDesktop ctx), (desktop p), (isLargeDesktop ctx), (largeDesktop p);
    reflexivity.
Qed.

Lemma cellStyle_lookup p ctx :
  let g := layout p ctx in
  let over k v := fallback (spread (style p) !! k) (Some v) in
  cellStyle p ctx !! "gridColumnStart" = over "gridColumnStart" (colStart g)
  /\ cellStyle p ctx !! "gridColumnEnd" = over "gridColumnEnd" (colEnd g)
  /\ cellStyle p ctx !! "gridRowStart" = over "gridRowStart" (rowStart g)
  /\ cellStyle p ctx !! "gridRowEnd" = over "gridRowEnd" (gridRowEnd g).
Proof.
  unfold cellStyle, fallback. cbv zeta.
  repeat split; rewrite lookup_union;
    destruct (spread (style p) !! _) eqn:E; simplify_map_eq; reflexivity.
Qed.

Lemma fallback_is_Some {A} (o : option A) (v : A) :
  is_Some (fallback o (Some v)).
Proof. destruct o; simpl; eauto. Qed.

Lemma GridCell_style_lookup p ctx k :
  is_Some (cellStyle p ctx !! k) ->
  style_of (GridCell p ctx) !! k = cellStyle p ctx !! k.
Proof.
  intros [v Hv]. unfold GridCell.
  destruct (truthy_bool (clone p)); [destruct (children p) |]; simpl;
    try reflexivity.
  rewrite lookup_union, Hv. destruct (spread style0 !! k); reflexivity.
Qed.

(** C8: at most one responsive override is applied, the one of the first
    pair in the order phone, tablet, desktop, largeDesktop whose size flag
    holds and whose object is provided; each of its five fields that is
    undefined falls back to the base prop; with no such pair the base props
    are used unchanged.  The rendered style carries the resulting values
    under the caller's own [style]. *)
Theorem GridCell_responsive_override p ctx :
  media p ctx = firstTruthy (candidates p ctx)
  /\ match firstTruthy (candidates p ctx) with
     | Some m =>
         rowSpan (layout p ctx) = fallback (rowSpan m) (rowSpan (base p))
         /\ rowStart (layout p ctx) = fallback (rowStart m) (rowStart (base p))
         /\ rowEnd (layout p ctx) = fallback (rowEnd m) (rowEnd (base p))
         /\ colStart (layout p ctx) = fallback (colStart m) (colStart (base p))
         /\ colEnd (layout p ctx) = fallback (colEnd m) (colEnd (base p))
     | None => layout p ctx = base p
     end
  /\ (let g := layout p ctx in
      let over k v := fallback (spread (style p) !! k) (Some v) in
      let rendered := style_of (GridCell p ctx) in
      rendered !! "gridColumnStart" = over "gridColumnStart" (colStart g)
      /\ rendered !! "gridColumnEnd" = over "gridColumnEnd" (colEnd g)
      /\ rendered !! "gridRowStart" = over "gridRowStart" (rowStart g)
      /\ rendered !! "gridRowEnd" = over "gridRowEnd" (gridRowEnd g)).
Proof.
  split; [apply media_firstTruthy |]. split.
  - unfold layout. rewrite media_firstTruthy.
    destruct (firstTruthy (candidates p ctx)) as [m|]; [| reflexivity].
    unfold with_default, fallback; simpl.
    destruct (rowSpan m), (rowStart m), (rowEnd m), (colStart m), (colEnd m);
      repeat split; reflexivity.
  - cbv zeta.
    destruct (cellStyle_lookup p ctx) as (H1 & H2 & H3 & H4). cbv zeta in *.
    rewrite <- H1, <- H2, <- H3, <- H4.
    repeat split; apply GridCell_style_lookup;
      rewrite ?H1, ?H2, ?H3, ?H4; apply fallback_is_Some.
Qed.

End GridCellFacts.

(* ================================================================== *)
(** * FloatingLabel: the active and inactive modifiers *)
(* ================================================================== *)

Module FloatingLabelFacts.
Import JS Bem FloatingLabel ClassFacts.

Example valuedIdle_class :
  labelClassName (FloatingLabel Samples.valuedIdleLabel)
  = "rmd-floating-label rmd-floating-label--active rmd-floating-label--inactive".
Proof. reflexivity. Qed.

Example emptyIdle_class :
  labelClassName (FloatingLabel Samples.emptyIdleLabel) = "rmd-floating-label".
Proof. reflexivity. Qed.

Lemma computedTokens_eq p :
  computedTokens p
  = "rmd-floating-label"
      :: modifierTokens "rmd-floating-label" (modifiers (withDefaultProps p)).
Proof.
  unfold computedTokens, computedClass, block, bem.
  apply classList_modify; [reflexivity | discriminate |].
  unfold modifiers. repeat constructor.
Qed.

(** Each modifier key is bound once: a token is present exactly when the
    value bound to its key is truthy. *)
Lemma modifier_present p k v :
  In (k, v) (modifiers (withDefaultProps p)) ->
  (forall v', In (k, v') (modifiers (withDefaultProps p)) -> v' = v) ->
  In ("rmd-floating-label" +:+ "--" +:+ k) (computedTokens p)
  <-> truthy v = true.
Proof.
  intros Hin Huniq. rewrite computedTokens_eq. split.
  - intros [Heq | Hmod].
    + simpl in Heq. discriminate Heq.
    + apply in_modifierTokens in Hmod as [v' [Hin' Ht]].
      now rewrite <- (Huniq v' Hin').
  - intros Ht. right. apply in_modifierTokens. eauto.
Qed.

Ltac single_binding :=
  unfold modifiers; simpl;
  intuition (try discriminate; try congruence).

Lemma activeToken_present p :
  In activeToken (computedTokens p) <-> (activeFlag p || valued p) = true.
Proof.
  change activeToken with ("rmd-floating-label" +:+ "--" +:+ "active").
  rewrite (modifier_present p "active" (isActive (withDefaultProps p))).
  - unfold isActive, js_or, activeFlag, truthy_bool. simpl.
    destruct (active (props p)) as [[|]|], (valued p); simpl; tauto.
  - single_binding.
  - intros v'. single_binding.
Qed.

Lemma inactiveToken_present p :
  In inactiveToken (computedTokens p)
  <-> (valued p && negb (activeFlag p)) = true.
Proof.
  change inactiveToken with ("rmd-floating-label" +:+ "--" +:+ "inactive").
  rewrite (modifier_present p "inactive"
             (js_and (VBool (valued (withDefaultProps p)))
                (js_not (of_bool (active (props (withDefaultProps p))))))).
  - unfold js_and, js_not, activeFlag, truthy_bool. simpl.
    destruct (active (props p)) as [[|]|], (valued p); simpl; tauto.
  - single_binding.
  - intros v'. single_binding.
Qed.

Lemma FloatingLabel_classList p :
  classList (labelClassName (FloatingLabel p))
  = computedTokens p ++ classList (orEmpty (className p)).
Proof.
  unfold FloatingLabel, render. simpl labelClassName.
  rewrite classList_cn2. reflexivity.
Qed.

(** C9, as stated, fails: a label that has a value and is not active carries
    the active and the inactive modifier together. *)
Lemma FloatingLabel_exclusive_counterexample :
  ~ (forall p,
        ~ (In activeToken (classList (labelClassName (FloatingLabel p)))
           /\ In inactiveToken (classList (labelClassName (FloatingLabel p))))).
Proof.
  intros claim. apply (claim Samples.valuedIdleLabel).
  vm_compute. auto.
Qed.

(** C9 (amended): the active modifier is computed iff [active || valued],
    the inactive modifier iff [valued && !active]; the two are not mutually
    exclusive: the inactive modifier is only ever computed together with
    the active one; a label with [valued = false] and [active = false] gets
    neither.  The rendered class list is the computed tokens followed by the
    caller's [className]. *)
Theorem FloatingLabel_active_inactive p :
  (In activeToken (computedTokens p) <-> (activeFlag p || valued p) = true)
  /\ (In inactiveToken (computedTokens p)
      <-> (valued p && negb (activeFlag p)) = true)
  /\ (In inactiveToken (computedTokens p) -> In activeToken (computedTokens p))
  /\ (valued p = false -> activeFlag p = false ->
      ~ In activeToken (computedTokens p)
      /\ ~ In inactiveToken (computedTokens p))
  /\ classList (labelClassName (FloatingLabel p))
     = computedTokens p ++ classList (orEmpty (className p)).
Proof.
  rewrite activeToken_present, inactiveToken_present.
  repeat split; try (intros; destruct (activeFlag p), (valued p);
                     simpl in *; congruence).
  apply FloatingLabel_classList.
Qed.

Lemma FloatingLabel_active_inactive_witness :
  In FloatingLabel.activeToken (computedTokens Samples.valuedIdleLabel)
  /\ (~ In FloatingLabel.activeToken (computedTokens Samples.emptyIdleLabel)
      /\ ~ In FloatingLabel.inactiveToken (computedTokens Samples.emptyIdleLabel)).
Proof.
  pose proof (FloatingLabel_active_inactive Samples.valuedIdleLabel)
    as (_ & _ & both & _).
  pose proof (FloatingLabel_active_inactive Samples.emptyIdleLabel)
    as (_ & _ & _ & neither & _).
  split.
  - apply both. vm_compute. auto.
  - apply neither; reflexivity.
Defined.

End FloatingLabelFacts.

(* ================================================================== *)
(** * ConditionalPortal: in place, or through a portal *)
(* ================================================================== *)

Module ConditionalPortalFacts.
Import JS ConditionalPortal.

Lemma absentOrFalsy_test p :
  absentOrFalsy p
  <-> (negb (truthy_bool (portal p)) && negb (truthy_into (portalInto p))
       && negb (truthy_string (portalIntoId p))) = true.
Proof.
  unfold absentOrFalsy, truthy_bool, truthy_into, truthy_string.
  destruct (portal p) as [[|]|]; simpl;
    try (split; [intros ([?|?] & _); discriminate | discriminate]).
  all: destruct (portalInto p) as [[s| | |]|]; simpl;
    try destruct (String.eqb_spec s ""); subst; simpl;
    try (split; [intros (_ & [?|[?|?]] & _); congruence | discriminate]).
  all: destruct (portalIntoId p) as [i|]; simpl;
    try destruct (String.eqb_spec i ""); subst; simpl;
    try (split; [intros (_ & _ & [?|?]); congruence | discriminate]).
  all: split; auto 10.
Qed.

(** C2: when [portal], [portalInto] and [portalIntoId] are all absent or
    falsy the children are returned as they are (also when they are [null]);
    otherwise the result is a [Portal] element that receives [portalInto] as
    [into], [portalIntoId] as [intoId], [visible], and the children. *)
Theorem ConditionalPortal_in_place_or_portal p :
  (absentOrFalsy p -> ConditionalPortal p = InPlace (children p))
  /\ (~ absentOrFalsy p ->
      ConditionalPortal p
      = Portal {| into := portalInto p;
                  intoId := portalIntoId p;
                  portalVisible := visible p;
                  portalChildren := children p |}).
Proof.
  rewrite absentOrFalsy_test. unfold ConditionalPortal.
  destruct (negb (truthy_bool (portal p)) && negb (truthy_into (portalInto p))
            && negb (truthy_string (portalIntoId p))).
  - split; [reflexivity | intros H; now contradiction H].
  - split; [discriminate | reflexivity].
Qed.

Lemma ConditionalPortal_in_place_or_portal_witness :
  ConditionalPortal Samples.inlineNull = InPlace VNull
  /\ ConditionalPortal Samples.intoOverlays
     = Portal {| into := None;
                 intoId := Some "overlays";
                 portalVisible := false;
                 portalChildren :=
                   VElement "div" None None None ∅ (VString "menu") |}.
Proof.
  split.
  - apply (proj1 (ConditionalPortal_in_place_or_portal Samples.inlineNull)).
    unfold absentOrFalsy. simpl. auto.
  - apply (proj2 (ConditionalPortal_in_place_or_portal Samples.intoOverlays)).
    unfold absentOrFalsy. simpl. intros (_ & _ & [H | H]); discriminate H.
Defined.

End ConditionalPortalFacts.

(* ================================================================== *)
(** * The [propTypes] guards *)
(* ================================================================== *)

Module ModuleScopeFacts.
Import ModuleScope.

Lemma loadPropTypes_normal h :
  loadPropTypes h
  = Normal (if propTypesResolvable h then Some PropTypesModule else None).
Proof.
  unfold loadPropTypes, require. simpl.
  destruct (propTypesResolvable h); reflexivity.
Qed.

Lemma require_throws h e :
  require h "prop-types" = Throw e -> propTypesResolvable h = false.
Proof.
  unfold require. simpl. destruct (propTypesResolvable h); [discriminate | auto].
Qed.

Lemma production_guard h :
  NODE_ENV h = Some "production" -> notProduction h = false.
Proof. unfold notProduction. intros ->. reflexivity. Qed.

(** C4: for each of Select, FloatingLabel, ConditionalPortal and GridCell,
    no [propTypes] are assigned when [NODE_ENV] is ["production"]; when
    requiring [prop-types] throws, the error is caught and the module
    completes normally with [propTypes] unassigned; the evaluation never
    ends in an uncaught error. *)
Theorem propTypes_guard c h :
  (NODE_ENV h = Some "production" ->
   evaluate c h = Normal {| displayName := None; propTypes := None |})
  /\ (forall e, require h "prop-types" = Throw e ->
                exists s, evaluate c h = Normal s /\ propTypes s = None)
  /\ (forall e, evaluate c h <> Throw e).
Proof.
  split; [| split].
  - intros H. apply production_guard in H.
    destruct c; unfold evaluate, Select_module, FloatingLabel_module,
      ConditionalPortal_module, GridCell_module; rewrite H; reflexivity.
  - intros e H. apply require_throws in H.
    destruct c; unfold evaluate, Select_module, FloatingLabel_module,
      ConditionalPortal_module, GridCell_module;
      rewrite loadPropTypes_normal, H; simpl;
      destruct (notProduction h); eauto.
  - intros e.
    destruct c; unfold evaluate, Select_module, FloatingLabel_module,
      ConditionalPortal_module, GridCell_module;
      rewrite loadPropTypes_normal; simpl;
      destruct (notProduction h), (propTypesResolvable h); discriminate.
Qed.

Lemma propTypes_guard_witness :
  evaluate GSelect Samples.production
  = Normal {| displayName := None; propTypes := None |}
  /\ exists s, evaluate GGridCell Samples.developmentWithoutPropTypes = Normal s
               /\ propTypes s = None.
Proof.
  split.
  - apply (proj1 (propTypes_guard GSelect Samples.production)). reflexivity.
  - apply (proj1 (proj2 (propTypes_guard GGridCell
                           Samples.developmentWithoutPropTypes))
             "Cannot find module 'prop-types'").
    reflexivity.
Defined.

Example development_assigns :
  evaluate GFloatingLabel
    {| NODE_ENV := Some "development"; propTypesResolvable := true |}
  = Normal {| displayName := Some "FloatingLabel";
              propTypes := Some FloatingLabel_propTypes |}.
Proof. reflexivity. Qed.

End ModuleScopeFacts.

(* ================================================================== *)
(** * DemoPage: one stylesheet link per font *)
(* ================================================================== *)

Module DemoPageFacts.
Import JS DemoPage.

Example href_open_sans :
  fontHref "Open Sans"
  = "https://fonts.googleapis.com/css2?family=Open+Sans&display=swap".
Proof. reflexivity. Qed.

Example href_ragged :
  replace_ws_plus "+" "  Source   Code Pro " = "+Source+Code+Pro+".
Proof. reflexivity. Qed.

Example href_font_awesome : fontHref "Font Awesome" = fontAwesomeHref.
Proof. reflexivity. Qed.

(** *** The scan, one code unit at a time *)

Lemma replace_copy rep c r :
  is_white_space c = false ->
  replace_ws_plus rep (String c r) = String c (replace_ws_plus rep r).
Proof.
  intros H. rewrite replace_ws_plus_equation_2. simpl. rewrite H. reflexivity.
Qed.

Lemma replace_match rep c r :
  is_white_space c = true ->
  replace_ws_plus rep (String c r)
  = rep +:+ replace_ws_plus rep (drop (match_ws_plus r) r).
Proof.
  intros H. rewrite replace_ws_plus_equation_2. simpl. rewrite H. reflexivity.
Qed.

(** White space after white space belongs to the same match. *)
Lemma replace_match_more rep c d r :
  is_white_space c = true -> is_white_space d = true ->
  replace_ws_plus rep (String c (String d r))
  = replace_ws_plus rep (String d r).
Proof.
  intros Hc Hd. rewrite (replace_match rep c) by assumption.
  rewrite (replace_match rep d) by assumption.
  simpl. rewrite Hd. reflexivity.
Qed.

Lemma replace_match_last rep c r :
  is_white_space c = true ->
  match r with String d _ => is_white_space d = false | EmptyString => True end ->
  replace_ws_plus rep (String c r) = rep +:+ replace_ws_plus rep r.
Proof.
  intros Hc Hr. rewrite replace_match by assumption.
  destruct r as [|d r]; simpl; [reflexivity | now rewrite Hr].
Qed.

(** *** The runs of a string *)

Lemma runs_head d r :
  exists run rest, runs (String d r) = (is_white_space d, run) :: rest.
Proof.
  simpl. destruct (runs r) as [|[b run] rest]; [eauto |].
  destruct (Bool.eqb_spec b (is_white_space d)); subst; eauto.
Qed.

Lemma runs_partition s : concat_string (map snd (runs s)) = s.
Proof.
  induction s as [|c s IH]; simpl; [reflexivity |].
  destruct (runs s) as [|[b run] rest]; simpl in *.
  - now rewrite <- IH.
  - destruct (Bool.eqb b (is_white_space c)); simpl; now rewrite <- IH.
Qed.

Lemma plus_for_runs_copy c r :
  is_white_space c = false ->
  plus_for_runs (String c r) = String c (plus_for_runs r).
Proof.
  intros H. unfold plus_for_runs. simpl. rewrite H.
  destruct (runs r) as [|[[|] run] rest]; reflexivity.
Qed.

Lemma plus_for_runs_more c d r :
  is_white_space c = true -> is_white_space d = true ->
  plus_for_runs (String c (String d r)) = plus_for_runs (String d r).
Proof.
  intros Hc Hd. unfold plus_for_runs.
  destruct (runs_head d r) as (run & rest & E).
  change (runs (String c (String d r)))
    with (match runs (String d r) with
          | (b, run) :: rest =>
              if Bool.eqb b (is_white_space c)
              then (b, String c run) :: rest
              else (is_white_space c, String c "") :: (b, run) :: rest
          | [] => [(is_white_space c, String c "")]
          end).
  rewrite E, Hc, Hd. reflexivity.
Qed.

Lemma plus_for_runs_last c r :
  is_white_space c = true ->
  match r with String d _ => is_white_space d = false | EmptyString => True end ->
  plus_for_runs (String c r) = "+" +:+ plus_for_runs r.
Proof.
  intros Hc Hr. unfold plus_for_runs.
  destruct r as [|d r]; [simpl; now rewrite Hc |].
  destruct (runs_head d r) as (run & rest & E).
  change (runs (String c (String d r)))
    with (match runs (String d r) with
          | (b, run) :: rest =>
              if Bool.eqb b (is_white_space c)
              then (b, String c run) :: rest
              else (is_white_space c, String c "") :: (b, run) :: rest
          | [] => [(is_white_space c, String c "")]
          end).
  rewrite E, Hc, Hr. reflexivity.
Qed.

(** The scan replaces every run of white space by a single ["+"]. *)
Lemma replace_ws_plus_runs s : replace_ws_plus "+" s = plus_for_runs s.
Proof.
  induction s as [|c s IH]; [reflexivity |].
  destruct (is_white_space c) eqn:Hc.
  - destruct s as [|d s].
    + now rewrite replace_match_last, plus_for_runs_last.
    + destruct (is_white_space d) eqn:Hd.
      * now rewrite replace_match_more, plus_for_runs_more.
      * now rewrite replace_match_last, plus_for_runs_last, IH.
  - now rewrite replace_copy, plus_for_runs_copy, IH.
Qed.

Lemma fontHref_documented font : fontHref font = documentedHref font.
Proof.
  unfold fontHref, documentedHref.
  destruct (String.eqb_spec font "Font Awesome"),
    (string_dec font "Font Awesome"); try contradiction; [reflexivity |].
  cbv zeta. now rewrite replace_ws_plus_runs.
Qed.

(** C10: the head holds one stylesheet link per listed font, in order and
    keyed by the font name; its address is the fixed Font Awesome 4.6.3
    address when the name is exactly "Font Awesome", and otherwise the Google
    Fonts address of the name in which every run of white space is replaced
    by a single "+". *)
Theorem DemoPage_font_links p :
  headLinks p
  = map (fun font => {| key := font; rel := "stylesheet";
                        href := documentedHref font |})
        (listedFonts p)
  /\ length (headLinks p) = length (listedFonts p)
  /\ map key (headLinks p) = listedFonts p.
Proof.
  unfold headLinks, listedFonts, EMPTY_LIST.
  set (l := match fonts p with Some l => l | None => [] end).
  repeat split.
  - apply map_ext. intros font. unfold fontLink.
    now rewrite fontHref_documented.
  - apply length_map.
  - rewrite map_map. simpl. apply map_id.
Qed.

End DemoPageFacts.

(* ================================================================== *)
(** * Select: defaults, ownership of the value, closing *)
(* ================================================================== *)

Module SelectFacts.
Import JS Select.

Section Facts.

Context {ListboxOption : Type}.
Variable option_truthy : ListboxOption -> bool.
Variable DEFAULT_GET_OPTION_ID : string -> nat -> string.
Variable DEFAULT_GET_OPTION_LABEL : ListboxOption -> string -> Value.
Variable DEFAULT_GET_ITEM_VALUE : ListboxOption -> string -> Value.
Variable DEFAULT_GET_DISPLAY_LABEL : option ListboxOption -> string -> bool -> Value.
Variable contains : nat -> nat -> bool.

Local Abbreviation withDefaults :=
  (withDefaultProps DEFAULT_GET_OPTION_ID DEFAULT_GET_OPTION_LABEL
     DEFAULT_GET_ITEM_VALUE DEFAULT_GET_DISPLAY_LABEL).
Local Abbreviation SelectC :=
  (Select option_truthy DEFAULT_GET_OPTION_ID DEFAULT_GET_OPTION_LABEL
     DEFAULT_GET_ITEM_VALUE DEFAULT_GET_DISPLAY_LABEL).
Local Abbreviation step := (dispatch option_truthy contains).

(** C5: a prop of [DefaultProps] that is omitted takes its declared default
    in the rendered tree; the component function is total, so a missing
    prop raises nothing. *)
Theorem Select_missing_props_defaulted (p : Props Optional) (st : State) :
  let t := SelectC p st in
  let g := picked p in
  let d := picked (withDefaults p) in
  (portal g = None -> l_portal (listbox t) = true)
  /\ (theme g = None -> c_theme (container t) = "outline")
  /\ (labelKey g = None -> l_labelKey (listbox t) = "label")
  /\ (valueKey g = None -> l_valueKey (listbox t) = "value")
  /\ (disabled g = None -> c_disabled (container t) = false)
  /\ (error g = None -> c_error (container t) = false)
  /\ (dense g = None -> c_dense (container t) = false)
  /\ (disableLeftAddon g = None -> disableLeftAddon d = false)
  /\ (disableMovementChange g = None ->
      l_disableMovementChange (listbox t) = false)
  /\ (getOptionId g = None -> l_getOptionId (listbox t) = DEFAULT_GET_OPTION_ID)
  /\ (getOptionLabel g = None ->
      l_getOptionLabel (listbox t) = DEFAULT_GET_OPTION_LABEL)
  /\ (getOptionValue g = None ->
      l_getOptionValue (listbox t) = DEFAULT_GET_ITEM_VALUE)
  /\ (getDisplayLabel g = None -> getDisplayLabel d = DEFAULT_GET_DISPLAY_LABEL)
  /\ (labelKey g = None -> valueKey g = None -> getOptionValue g = None ->
      getDisplayLabel g = None -> disableLeftAddon g = None ->
      displayValue option_truthy (withDefaults p)
      = DEFAULT_GET_DISPLAY_LABEL
          (match find (fun o => strict_equal (DEFAULT_GET_ITEM_VALUE o "value")
                                             (value p))
                      (options p) with
           | Some o => if option_truthy o then Some o else None
           | None => None
           end)
          "label" true).
Proof.
  cbv zeta. unfold Select, render, displayValue, withDefaultProps. simpl.
  repeat split; intros; repeat match goal with H : _ = None |- _ =>
                                  rewrite H; clear H end;
    reflexivity.
Qed.

(** C3 (amended): the selection value is not a state cell of the instance.
    [Select] is controlled: the [value] prop is forwarded as it is to the
    listbox, together with [onChange], whatever the state of the instance,
    and no event handled by the instance changes the value it forwards. *)
Theorem Select_value_is_controlled (p : Props Optional) (e : Event) (st : State) :
  l_value (listbox (SelectC p st)) = value p
  /\ l_onChange (listbox (SelectC p st)) = onChange p
  /\ l_value (listbox (SelectC p (fst (step (withDefaults p) e st)))) = value p.
Proof. repeat split. Qed.

(** Closing leaves every cell but the flag as it was. *)
Lemma hide_frame st :
  visible (hide st) = false
  /\ focused (hide st) = focused st
  /\ selectRef (hide st) = selectRef st
  /\ fixedStyle (hide st) = fixedStyle st.
Proof. repeat split. Qed.

(** C6 (amended): for an instance whose listbox is visible, a click outside
    the select element sets the visible flag to [false] and does nothing
    else.  The listbox's request to close sets the visible flag to [false]
    and calls [focus()] on the select element when it is mounted; when that
    moves the focus (the element is not disabled and does not have the focus
    already) the focus handler of the element runs: the focused flag
    becomes [true] and the [onFocus] prop is invoked.  The ref and the
    positioning style stay as they were; no callback prop other than
    [onFocus] is invoked, and the value forwarded to the listbox is the
    [value] prop before and after. *)
Theorem Select_close_is_flag_flip (p : Props Required) (e : Event) (st : State) :
  visible st = true ->
  closes contains e st = true ->
  let st' := fst (step p e st) in
  let effects := snd (step p e st) in
  visible st' = false
  /\ selectRef st' = selectRef st
  /\ fixedStyle st' = fixedStyle st
  /\ match e, selectRef st with
     | RequestClose active, Some node =>
         if negb (disabled (picked p))
            && match active with
               | Some a => negb (Nat.eqb a node)
               | None => true
               end
         then focused st' = true
              /\ effects = FocusNode node :: invoke (onFocus p)
         else focused st' = focused st /\ effects = [FocusNode node]
     | _, _ => focused st' = focused st /\ effects = []
     end
  /\ (forall callback, In (Invoke callback) effects -> onFocus p = Some callback)
  /\ l_value (listbox (render option_truthy p st')) = value p
  /\ l_value (listbox (render option_truthy p st)) = value p
  /\ l_onChange (listbox (render option_truthy p st')) = onChange p.
Proof.
  intros Hv Hc. cbv zeta.
  destruct e as [| event | | | target | active]; simpl in Hc; try discriminate.
  - unfold dispatch, useCloseOnOutsideClick. simpl.
    rewrite Hv, Hc. simpl.
    repeat split; try (destruct (selectRef st); reflexivity).
    intros callback [].
  - unfold dispatch, handleKeyboardClose, focus, takesFocus, handleFocus.
    simpl.
    destruct (selectRef st) as [node|] eqn:Href; simpl.
    + destruct (disabled (picked p)); simpl.
      * repeat split; try exact Href.
        intros callback [H | []]. discriminate H.
      * assert (Hinv : forall callback,
                   In (Invoke callback) (FocusNode node :: invoke (onFocus p)) ->
                   onFocus p = Some callback).
        { intros callback [H | H]; [discriminate H |].
          unfold invoke in H. destruct (onFocus p); simpl in H; [| contradiction].
          destruct H as [[= ->] | []]. reflexivity. }
        destruct active as [a|]; [destruct (Nat.eqb a node) |]; simpl;
          repeat split; try exact Hinv; try exact Href.
        intros callback [H | []]. discriminate H.
    + repeat split; try exact Href. intros callback [].
Qed.

End Facts.

Example closed_listbox_value :
  l_value (listbox (Select Samples.optionTruthy Samples.sampleGetOptionId
                      Samples.sampleGetOptionLabel Samples.sampleGetItemValue
                      Samples.sampleGetDisplayLabel
                      (Samples.exampleSelect "Option 2") initialState))
  = VString "Option 2".
Proof. reflexivity. Qed.

Example shown_value :
  v_children (valueSpan (Select Samples.optionTruthy Samples.sampleGetOptionId
                      Samples.sampleGetOptionLabel Samples.sampleGetItemValue
                      Samples.sampleGetDisplayLabel
                      (Samples.exampleSelect "Option 2") initialState))
  = VString "Option 2".
Proof. reflexivity. Qed.

(** C3, as stated, fails: if the selection value were state of the instance,
    the value handed to the listbox would be determined by that state; two
    renders of one and the same state show different values. *)
Lemma Select_value_in_state_counterexample :
  ~ (exists current : State -> Value,
        forall (p : Props Optional) (st : State),
          l_value (listbox (Select Samples.optionTruthy
                              Samples.sampleGetOptionId
                              Samples.sampleGetOptionLabel
                              Samples.sampleGetItemValue
                              Samples.sampleGetDisplayLabel p st))
          = current st).
Proof.
  intros [current claim].
  pose proof (claim (Samples.exampleSelect "") initialState) as H1.
  pose proof (claim (Samples.exampleSelect "Option 2") initialState) as H2.
  simpl in H1, H2. rewrite <- H1 in H2. discriminate H2.
Qed.

Lemma Select_missing_props_defaulted_witness :
  let t := Select Samples.optionTruthy Samples.sampleGetOptionId
             Samples.sampleGetOptionLabel Samples.sampleGetItemValue
             Samples.sampleGetDisplayLabel
             (Samples.exampleSelect "Option 2") initialState in
  l_portal (listbox t) = true
  /\ c_theme (container t) = "outline"
  /\ l_labelKey (listbox t) = "label"
  /\ l_getOptionValue (listbox t) = Samples.sampleGetItemValue.
Proof.
  pose proof (Select_missing_props_defaulted Samples.optionTruthy
                Samples.sampleGetOptionId Samples.sampleGetOptionLabel
                Samples.sampleGetItemValue Samples.sampleGetDisplayLabel
                (Samples.exampleSelect "Option 2") initialState) as H.
  cbv zeta in H.
  destruct H as (Hportal & Htheme & HlabelKey & _ & _ & _ & _ & _ & _ & _ & _
                 & Hvalue & _).
  cbv zeta.
  refine (conj (Hportal _) (conj (Htheme _) (conj (HlabelKey _) (Hvalue _))));
    reflexivity.
Defined.

(** C6, as stated, fails: closing by the keyboard does not leave the other
    state as it was.  On an enabled select mounted on node 7, with the
    focus in the listbox (node 8), the request to close sets the focused
    flag. *)
Lemma Select_close_only_flips_visible_counterexample :
  ~ (forall (p : Props Required) (e : Event) (st : State),
        visible st = true ->
        closes Samples.flatDocument e st = true ->
        focused (fst (dispatch Samples.optionTruthy Samples.flatDocument p e st))
        = focused st).
Proof.
  intros claim.
  specialize (claim MoreSamples.listeningSelect (RequestClose (Some 8))
                    Samples.openState eq_refl eq_refl).
  discriminate claim.
Qed.

Lemma Select_close_is_flag_flip_witness :
  let after := dispatch Samples.optionTruthy Samples.flatDocument
                 MoreSamples.listeningSelect (RequestClose (Some 8))
                 Samples.openState in
  visible (fst after) = false
  /\ (focused (fst after) = true /\ snd after = [FocusNode 7; Invoke 4])
  /\ l_value (listbox (render Samples.optionTruthy MoreSamples.listeningSelect
                         (fst after)))
     = VString "Option 2".
Proof.
  cbv zeta.
  pose proof (Select_close_is_flag_flip Samples.optionTruthy
                Samples.flatDocument MoreSamples.listeningSelect
                (RequestClose (Some 8)) Samples.openState eq_refl eq_refl) as H.
  cbv zeta in H.
  destruct H as (Hvis & _ & _ & Hfocus & _ & Hval & _).
  exact (conj Hvis (conj Hfocus Hval)).
Defined.

End SelectFacts.

(* ================================================================== *)
(** * Rendering is a function of props and context *)
(* ================================================================== *)

Module RenderFacts.
Import JS.






Section Facts.

Context {ListboxOption : Type}.
Variable option_truthy : ListboxOption -> bool.
Variable DEFAULT_GET_OPTION_ID : string -> nat -> string.
Variable DEFAULT_GET_OPTION_LABEL : ListboxOption -> string -> Value.
Variable DEFAULT_GET_ITEM_VALUE : ListboxOption -> string -> Value.
Variable DEFAULT_GET_DISPLAY_LABEL : option ListboxOption -> string -> bool -> Value.

Local Abbreviation SelectR :=
  (Runtime.Select option_truthy DEFAULT_GET_OPTION_ID DEFAULT_GET_OPTION_LABEL
     DEFAULT_GET_ITEM_VALUE DEFAULT_GET_DISPLAY_LABEL).


End Facts.

(** The statement is not true of every render: one that reads the clock
    gives different trees on hosts that agree on context and state. *)
Example stamped_depends_on_its_host :
  Runtime.sameContext (MoreSamples.hostAt Samples.onDesktop 1)
                      (MoreSamples.hostAt Samples.onDesktop 2)
  /\ Runtime.sameState (MoreSamples.hostAt Samples.onDesktop 1)
                       (MoreSamples.hostAt Samples.onDesktop 2)
  /\ Runtime.run (MoreSamples.hostAt Samples.onDesktop 1) Runtime.stamped
     <> Runtime.run (MoreSamples.hostAt Samples.onDesktop 2) Runtime.stamped.
Proof.
  split; [| split].
  - unfold Runtime.sameContext, GridCell.sameContext. simpl. auto.
  - unfold Runtime.sameState. simpl. auto.
  - simpl. discriminate.
Qed.


End RenderFacts.

(* ================================================================== *)
(** * GridCell: row ends, caller styles and cloning *)
(* ================================================================== *)

Module GridCellMore.
Import JS Bem GridCell ClassFacts GridCellFacts Support.

Lemma rendered_gridRowEnd p ctx :
  spread (style p) !! "gridRowEnd" = None ->
  style_of (GridCell p ctx) !! "gridRowEnd" = Some (gridRowEnd (layout p ctx)).
Proof.
  intros Hs.
  destruct (cellStyle_lookup p ctx) as (_ & _ & _ & H4). cbv zeta in H4.
  rewrite Hs in H4. simpl in H4.
  rewrite GridCell_style_lookup; rewrite H4; eauto.
Qed.

(** X1: Under a responsive override, and for row spans that are integers
    the host prints exactly, the row end of the rendered style is the
    span of the override's [rowSpan] when that is a non-zero number; with
    the override's [rowSpan] undefined it is the span of the base [rowSpan]
    when that is non-zero, whatever [rowEnd] the override gives; in every
    other case it is the override's [rowEnd], falling back to the base
    [rowEnd].  A [rowSpan] of 0 counts as no span. *)
Theorem GridCell_row_end_under_override p ctx m :
  media p ctx = Some m ->
  safeInteger (rowSpan m) ->
  safeInteger (rowSpan (base p)) ->
  spread (style p) !! "gridRowEnd" = None ->
  style_of (GridCell p ctx) !! "gridRowEnd"
  = Some (match rowSpan m, rowSpan (base p) with
          | Some n, _ =>
              if (n =? 0)%Z then fallback (rowEnd m) (rowEnd (base p))
              else spanOf n
          | None, Some n =>
              if (n =? 0)%Z then fallback (rowEnd m) (rowEnd (base p))
              else spanOf n
          | None, None => fallback (rowEnd m) (rowEnd (base p))
          end).
Proof.
  intros Hm _ _ Hs. rewrite rendered_gridRowEnd by assumption. f_equal.
  unfold layout. rewrite Hm. unfold gridRowEnd, truthy_number, spanOf. simpl.
  destruct (rowSpan m) as [n|]; simpl.
  - destruct (n =? 0)%Z; simpl; [destruct (rowEnd m) |]; reflexivity.
  - destruct (rowSpan (base p)) as [n|]; simpl;
      [destruct (n =? 0)%Z; simpl |]; try destruct (rowEnd m); reflexivity.
Qed.

Lemma GridCell_row_end_under_override_witness :
  style_of (GridCell MoreSamples.stackedCell MoreSamples.onPhone) !! "gridRowEnd"
  = Some (Some (CssStr "span 2")).
Proof.
  apply (GridCell_row_end_under_override MoreSamples.stackedCell
           MoreSamples.onPhone
           {| rowSpan := None; rowStart := None; rowEnd := Some (CssNum 5);
              colStart := None; colEnd := None |}).
  - reflexivity.
  - exact I.
  - simpl. unfold MAX_SAFE_INTEGER. lia.
  - reflexivity.
Defined.

(** X2: Whatever the caller's [style] defines reaches the rendered element
    unchanged, also under the four grid keys and also when the cell is
    cloned into its child. *)
Theorem GridCell_caller_style_wins p ctx k v :
  spread (style p) !! k = Some v ->
  style_of (GridCell p ctx) !! k = Some v.
Proof.
  intros Hk.
  assert (Hc : cellStyle p ctx !! k = Some v).
  { unfold cellStyle. rewrite lookup_union, Hk.
    match goal with |- Some v ∪ ?o = _ => destruct o end; reflexivity. }
  rewrite GridCell_style_lookup; eauto.
Qed.

Lemma GridCell_caller_style_wins_witness :
  style_of (GridCell MoreSamples.restyledCell Samples.onDesktop) !! "gridRowStart"
  = Some (Some (CssStr "auto")).
Proof.
  apply (GridCell_caller_style_wins MoreSamples.restyledCell Samples.onDesktop).
  reflexivity.
Defined.

(** X3: A cell cloned into its child keeps the child's type, ref, other props
    and children; the child's own style entries survive under the cell's;
    the cell's [forwardedRef] and remaining attributes are dropped: the
    result is the same whatever they are. *)
Theorem GridCell_clone_keeps_child p ctx type cstyle cclass cref crest cchildren :
  truthy_bool (clone p) = true ->
  children p = VElement type cstyle cclass cref crest cchildren ->
  (exists s c,
      GridCell p ctx = VElement type (Some s) (Some c) cref crest cchildren
      /\ (forall k, s !! k = match cellStyle p ctx !! k with
                             | Some v => Some v
                             | None => spread cstyle !! k
                             end)
      /\ classList c
         = classList (cellClassName p) ++ classList (orEmpty cclass))
  /\ forall r a, GridCell (withOwn p r a) ctx = GridCell p ctx.
Proof.
  intros Hc Hch. split.
  - unfold GridCell. rewrite Hc, Hch. eexists _, _. split; [reflexivity |].
    split.
    + intros k. rewrite lookup_union.
      destruct (cellStyle p ctx !! k), (spread cstyle !! k); reflexivity.
    + apply classList_cn2.
  - intros r a. unfold GridCell, withOwn. simpl. rewrite Hc, Hch. reflexivity.
Qed.

Lemma GridCell_clone_keeps_child_witness :
  GridCell MoreSamples.clonedCell Samples.onDesktop
  = GridCell (withOwn MoreSamples.clonedCell None ∅) Samples.onDesktop.
Proof.
  symmetry.
  apply (proj2 (GridCell_clone_keeps_child MoreSamples.clonedCell
                  Samples.onDesktop "section"
                  (Some {[ "color" := Some (CssStr "blue") ]})
                  (Some "card") (Some 4) {[ "title" := AStr "t" ]}
                  (VString "body") eq_refl eq_refl)).
Defined.

Example cloned_card :
  class_of (GridCell MoreSamples.clonedCell Samples.onDesktop)
  = "rmd-grid__cell rmd-grid__cell--3 card".
Proof. reflexivity. Qed.

(** X4: With [clone] set but children that are not a single element (text, a
    number, an array, nothing), the cell is rendered as without [clone]: a
    [div] around the children. *)
Theorem GridCell_clone_needs_element p ctx :
  isValidElement (children p) = false ->
  GridCell p ctx
  = VElement "div" (Some (cellStyle p ctx)) (Some (cellClassName p))
      (forwardedRef p) (props p) (children p)
  /\ GridCell p ctx = GridCell (withClone p None) ctx.
Proof.
  intros H. unfold GridCell, withClone. simpl.
  destruct (children p); try discriminate H;
    destruct (truthy_bool (clone p)); split; reflexivity.
Qed.

Lemma GridCell_clone_needs_element_witness :
  GridCell MoreSamples.textCloneCell Samples.onDesktop
  = GridCell (withClone MoreSamples.textCloneCell None) Samples.onDesktop.
Proof.
  apply (proj2 (GridCell_clone_needs_element MoreSamples.textCloneCell
                  Samples.onDesktop eq_refl)).
Defined.

(** X5: The class name never depends on the screen size or on the layout props,
    and the style never depends on [colSpan] or [className]. *)
Theorem GridCell_class_and_style_are_separate p q ctx ctx' :
  clone p = clone q -> children p = children q ->
  (colSpan p = colSpan q -> className p = className q ->
   class_of (GridCell p ctx) = class_of (GridCell q ctx'))
  /\ (style p = style q -> base p = base q -> phone p = phone q ->
      tablet p = tablet q -> desktop p = desktop q ->
      largeDesktop p = largeDesktop q ->
      style_of (GridCell p ctx) = style_of (GridCell q ctx)).
Proof.
  intros Hc Hch. split.
  - intros Hs Hn. unfold GridCell, cellClassName.
    rewrite Hc, Hch, Hs, Hn.
    destruct (truthy_bool (clone q)); [destruct (children q) |]; reflexivity.
  - intros Hs Hb H1 H2 H3 H4.
    assert (E : cellStyle p ctx = cellStyle q ctx).
    { unfold cellStyle, layout, media. now rewrite Hs, Hb, H1, H2, H3, H4. }
    unfold GridCell. rewrite Hc, Hch, E.
    destruct (truthy_bool (clone q)); [destruct (children q) |]; reflexivity.
Qed.

Lemma GridCell_class_and_style_are_separate_witness :
  class_of (GridCell Samples.span3Cell Samples.onDesktop)
  = class_of (GridCell Samples.span3Cell MoreSamples.onPhone)
  /\ style_of (GridCell Samples.span3Cell Samples.onDesktop)
     = style_of (GridCell Samples.bareCell Samples.onDesktop).
Proof.
  split.
  - apply (proj1 (GridCell_class_and_style_are_separate Samples.span3Cell
                    Samples.span3Cell Samples.onDesktop MoreSamples.onPhone
                    eq_refl eq_refl)); reflexivity.
  - apply (proj2 (GridCell_class_and_style_are_separate Samples.span3Cell
                    Samples.bareCell Samples.onDesktop Samples.onDesktop
                    eq_refl eq_refl)); reflexivity.
Defined.

End GridCellMore.

(* ================================================================== *)
(** * FloatingLabel: the remaining modifiers *)
(* ================================================================== *)

Module FloatingLabelMore.
Import JS Bem FloatingLabel ClassFacts FloatingLabelFacts Support.

Lemma floats_truthy p :
  truthy (isActive (withDefaultProps p)) = floats p.
Proof.
  unfold isActive, js_or, floats, activeFlag, truthy_bool. simpl.
  destruct (active (props p)) as [[|]|], (valued p); reflexivity.
Qed.

Lemma denseToken_present p :
  In denseToken (computedTokens p) <-> truthy_bool (dense p) = true.
Proof.
  change denseToken with ("rmd-floating-label" +:+ "--" +:+ "dense").
  rewrite (modifier_present p "dense" (of_bool (dense (withDefaultProps p)))).
  - reflexivity.
  - single_binding.
  - intros v'. single_binding.
Qed.

Lemma coveringToken_present p :
  In coveringToken (computedTokens p) <-> truthy_bool (covering p) = true.
Proof.
  change coveringToken with ("rmd-floating-label" +:+ "--" +:+ "covering").
  rewrite (modifier_present p "covering"
             (of_bool (covering (withDefaultProps p)))).
  - unfold truthy_bool. simpl. destruct (covering p) as [[|]|]; reflexivity.
  - single_binding.
  - intros v'. single_binding.
Qed.

Lemma outlineActiveToken_present p :
  In outlineActiveToken (computedTokens p)
  <-> (floats p && truthy_bool (outline p)) = true.
Proof.
  change outlineActiveToken
    with ("rmd-floating-label" +:+ "--" +:+ "outline-active").
  rewrite (modifier_present p "outline-active"
             (js_and (isActive (withDefaultProps p))
                     (of_bool (outline (withDefaultProps p))))).
  - unfold js_and. rewrite <- floats_truthy.
    destruct (truthy (isActive (withDefaultProps p))) eqn:E; simpl.
    + reflexivity.
    + rewrite E. reflexivity.
  - single_binding.
  - intros v'. single_binding.
Qed.

Lemma underlineLeftOffsetToken_present p :
  In underlineLeftOffsetToken (computedTokens p)
  <-> (floats p && truthy_bool (underline p) && truthy_bool (leftChildren p))
      = true.
Proof.
  change underlineLeftOffsetToken
    with ("rmd-floating-label" +:+ "--" +:+ "underline-left-offset").
  rewrite (modifier_present p "underline-left-offset"
             (js_and (js_and (isActive (withDefaultProps p))
                             (of_bool (underline (withDefaultProps p))))
                     (of_bool (leftChildren (withDefaultProps p))))).
  - unfold js_and. rewrite <- floats_truthy.
    destruct (truthy (isActive (withDefaultProps p))) eqn:E; simpl.
    + unfold truthy_bool.
      destruct (underline p) as [[|]|]; simpl; reflexivity.
    + rewrite E. simpl. rewrite E. reflexivity.
  - single_binding.
  - intros v'. single_binding.
Qed.

(** X6: The dense and covering modifiers follow their props; the
    outline-active modifier is computed iff the label floats (is active or
    has a value) and [outline] is set, the underline-left-offset modifier
    iff it floats and [underline] and [leftChildren] are set; each of the two
    is only ever computed together with the active modifier. *)
Theorem FloatingLabel_remaining_modifiers p :
  (In denseToken (computedTokens p) <-> truthy_bool (dense p) = true)
  /\ (In coveringToken (computedTokens p) <-> truthy_bool (covering p) = true)
  /\ (In outlineActiveToken (computedTokens p)
      <-> (floats p && truthy_bool (outline p)) = true)
  /\ (In underlineLeftOffsetToken (computedTokens p)
      <-> (floats p && truthy_bool (underline p)
           && truthy_bool (leftChildren p)) = true)
  /\ (In outlineActiveToken (computedTokens p) -> In activeToken (computedTokens p))
  /\ (In underlineLeftOffsetToken (computedTokens p)
      -> In activeToken (computedTokens p)).
Proof.
  rewrite denseToken_present, coveringToken_present,
    outlineActiveToken_present, underlineLeftOffsetToken_present,
    activeToken_present.
  fold (floats p).
  repeat split; try tauto;
    intros H; destruct (floats p); simpl in H; congruence.
Qed.

Lemma FloatingLabel_remaining_modifiers_witness :
  In activeToken (computedTokens MoreSamples.outlinedLabel).
Proof.
  destruct (FloatingLabel_remaining_modifiers MoreSamples.outlinedLabel)
    as (_ & _ & outline_iff & _ & outline_active & _).
  apply outline_active. apply outline_iff. reflexivity.
Defined.

(** X7: The class name of the label is a function of [className], [dense],
    [active], [valued], [covering], [outline], [underline] and
    [leftChildren] alone: [rightChildren], [error], [disabled], the style,
    the ref and the children never change it. *)
Theorem FloatingLabel_class_ignores_the_rest p q :
  className p = className q ->
  dense p = dense q ->
  active (props p) = active (props q) ->
  valued p = valued q ->
  covering p = covering q ->
  outline p = outline q ->
  underline p = underline q ->
  leftChildren p = leftChildren q ->
  labelClassName (FloatingLabel p) = labelClassName (FloatingLabel q).
Proof.
  intros H1 H2 H3 H4 H5 H6 H7 H8.
  unfold FloatingLabel, render, computedClass, modifiers, isActive,
    withDefaultProps. simpl.
  now rewrite H1, H2, H3, H4, H5, H6, H7, H8.
Qed.

Lemma FloatingLabel_class_ignores_the_rest_witness :
  labelClassName (FloatingLabel MoreSamples.outlinedLabel)
  = labelClassName (FloatingLabel MoreSamples.outlinedLabel').
Proof.
  apply (FloatingLabel_class_ignores_the_rest MoreSamples.outlinedLabel
           MoreSamples.outlinedLabel'); reflexivity.
Defined.

End FloatingLabelMore.

(* ================================================================== *)
(** * ConditionalPortal: where [visible] matters *)
(* ================================================================== *)

Module ConditionalPortalMore.
Import JS ConditionalPortal ConditionalPortalFacts.

(** X8: [visible] is read in the portal only: two uses that differ in [visible]
    and in nothing else render the same iff no portal prop is set.  The
    component never hides children that stay in place. *)
Theorem ConditionalPortal_visible_matters_in_portal_only p q :
  portal p = portal q ->
  portalInto p = portalInto q ->
  portalIntoId p = portalIntoId q ->
  children p = children q ->
  visible p <> visible q ->
  (ConditionalPortal p = ConditionalPortal q <-> absentOrFalsy p).
Proof.
  intros H1 H2 H3 H4 Hv. rewrite absentOrFalsy_test.
  unfold ConditionalPortal. rewrite <- H1, <- H2, <- H3, <- H4.
  destruct (negb (truthy_bool (portal p)) && negb (truthy_into (portalInto p))
            && negb (truthy_string (portalIntoId p))).
  - tauto.
  - split; [| discriminate]. intros [= H]. contradiction.
Qed.

Lemma ConditionalPortal_visible_matters_in_portal_only_witness :
  ConditionalPortal MoreSamples.inlineShown
  = ConditionalPortal MoreSamples.inlineHidden.
Proof.
  apply (ConditionalPortal_visible_matters_in_portal_only
           MoreSamples.inlineShown MoreSamples.inlineHidden);
    try reflexivity.
  - discriminate.
  - unfold absentOrFalsy. simpl. auto.
Defined.

End ConditionalPortalMore.

(* ================================================================== *)
(** * The guards, in full *)
(* ================================================================== *)

Module ModuleScopeMore.
Import ModuleScope ModuleScopeFacts Support.

Lemma notProduction_iff h :
  notProduction h = true <-> NODE_ENV h <> Some "production".
Proof.
  unfold notProduction. destruct (NODE_ENV h) as [env|].
  - destruct (String.eqb_spec env "production"); simpl; split;
      congruence.
  - split; [discriminate | reflexivity].
Qed.

(** X9: Every guarded module completes normally, with exactly this outcome: the
    component is named iff [NODE_ENV] is not ["production"] (ConditionalPortal
    is never named), and its declared validators are assigned iff moreover
    [prop-types] can be required.  An unset [NODE_ENV] counts as not
    production. *)
Theorem guard_outcome c h :
  evaluate c h
  = Normal {| displayName := if notProduction h then assignedName c else None;
              propTypes := if notProduction h && propTypesResolvable h
                           then Some (declared c) else None |}
  /\ (notProduction h = true <-> NODE_ENV h <> Some "production").
Proof.
  split; [| apply notProduction_iff].
  destruct c; unfold evaluate, Select_module, FloatingLabel_module,
    ConditionalPortal_module, GridCell_module;
    rewrite loadPropTypes_normal;
    destruct (notProduction h), (propTypesResolvable h); reflexivity.
Qed.

End ModuleScopeMore.

(* ================================================================== *)
(** * DemoPage: what the replacement leaves behind *)
(* ================================================================== *)

Module DemoPageMore.
Import JS DemoPage DemoPageFacts Support.

Lemma has_white_space_append a b :
  has_white_space (a +:+ b) = has_white_space a || has_white_space b.
Proof.
  induction a as [|c a IH]; simpl; [reflexivity |].
  rewrite IH. now rewrite orb_assoc.
Qed.

(** The three shapes of a non-empty string, as the scan meets them. *)
Lemma replace_cases rep c r :
  (is_white_space c = false
   /\ replace_ws_plus rep (String c r) = String c (replace_ws_plus rep r))
  \/ (is_white_space c = true
      /\ (exists d r', r = String d r' /\ is_white_space d = true)
      /\ replace_ws_plus rep (String c r) = replace_ws_plus rep r)
  \/ (is_white_space c = true
      /\ replace_ws_plus rep (String c r) = rep +:+ replace_ws_plus rep r).
Proof.
  destruct (is_white_space c) eqn:Hc.
  - right. destruct r as [|d r'].
    + right. split; [reflexivity |]. now apply replace_match_last.
    + destruct (is_white_space d) eqn:Hd.
      * left. split; [reflexivity |]. split; [eauto |].
        now apply replace_match_more.
      * right. split; [reflexivity |]. now apply replace_match_last.
  - left. split; [reflexivity |]. now apply replace_copy.
Qed.

Lemma replace_no_white_space rep s :
  has_white_space rep = false ->
  has_white_space (replace_ws_plus rep s) = false.
Proof.
  intros Hrep. induction s as [|c s IH]; [reflexivity |].
  destruct (replace_cases rep c s) as [[Hc E] | [(Hc & _ & E) | [Hc E]]];
    rewrite E.
  - simpl. now rewrite Hc, IH.
  - exact IH.
  - now rewrite has_white_space_append, Hrep, IH.
Qed.

(** X10: No stylesheet address holds white space, whatever the font is called. *)
Theorem fontHref_has_no_white_space font :
  has_white_space (fontHref font) = false
  /\ has_white_space (replace_ws_plus "+" font) = false.
Proof.
  assert (H : has_white_space (replace_ws_plus "+" font) = false)
    by (apply replace_no_white_space; reflexivity).
  split; [| exact H].
  unfold fontHref. destruct (String.eqb font "Font Awesome"); [reflexivity |].
  cbv zeta. rewrite !has_white_space_append, H. reflexivity.
Qed.

Lemma replace_fixes_words rep s :
  has_white_space s = false -> replace_ws_plus rep s = s.
Proof.
  induction s as [|c s IH]; [reflexivity |]. simpl.
  intros H. apply orb_false_elim in H as [Hc Hs].
  rewrite replace_copy by assumption. now rewrite IH.
Qed.

Lemma replace_changes_spaced s :
  replace_ws_plus "+" s = s -> has_white_space s = false.
Proof.
  intros E. rewrite <- E. apply replace_no_white_space. reflexivity.
Qed.

(** X11: A name is used as it is exactly when it holds no white space, and
    replacing twice is replacing once. *)
Theorem replace_ws_plus_fixed_points s :
  (replace_ws_plus "+" s = s <-> has_white_space s = false)
  /\ replace_ws_plus "+" (replace_ws_plus "+" s) = replace_ws_plus "+" s.
Proof.
  split.
  - split; [apply replace_changes_spaced | apply replace_fixes_words].
  - apply replace_fixes_words. apply replace_no_white_space. reflexivity.
Qed.

(** X12: The replaced name is never longer than the name. *)
Theorem replace_ws_plus_length s :
  String.length (replace_ws_plus "+" s) <= String.length s.
Proof.
  induction s as [|c s IH]; [reflexivity |].
  destruct (replace_cases "+" c s) as [[Hc E] | [(Hc & _ & E) | [Hc E]]];
    rewrite E; simpl; lia.
Qed.

(** X13: Only the exact name "Font Awesome" is served from the cdnjs address;
    every other name, however close, goes to Google Fonts. *)
Theorem fontHref_font_awesome_only font :
  fontHref font = fontAwesomeHref <-> font = "Font Awesome".
Proof.
  unfold fontHref. destruct (String.eqb_spec font "Font Awesome") as [-> | Hne].
  - tauto.
  - split; [| contradiction]. cbv zeta. unfold fontAwesomeHref. simpl.
    intros H. discriminate H.
Qed.

Example font_awesome_lower_case :
  fontHref "font awesome"
  = "https://fonts.googleapis.com/css2?family=font+awesome&display=swap".
Proof. reflexivity. Qed.

End DemoPageMore.

(* ================================================================== *)
(** * Select: handlers and the rendered tree *)
(* ================================================================== *)

Module SelectMore.
Import JS Bem Select ClassFacts Support.

Section Facts.

Context {ListboxOption : Type}.
Variable option_truthy : ListboxOption -> bool.
Variable contains : nat -> nat -> bool.

Local Abbreviation step := (dispatch option_truthy contains).
Local Abbreviation tree := (render option_truthy).

(** X14: A disabled select is inert: it binds no click and no key handler, is
    out of the tab order and marked [aria-disabled]; clicks and keys leave
    its state as it is and reach neither [onClick] nor [onKeyDown]. *)
Theorem Select_disabled_is_inert (p : Props Required) (st : State) :
  disabled (picked p) = true ->
  c_onClick (container (tree p st)) = None
  /\ c_onKeyDown (container (tree p st)) = None
  /\ c_tabIndex (container (tree p st)) = None
  /\ c_ariaDisabled (container (tree p st)) = Some true
  /\ step p Click st = (st, [])
  /\ forall event, step p (KeyDown event) st = (st, []).
Proof.
  intros H. unfold dispatch. simpl. rewrite H. repeat split.
Qed.

(** X15: On an enabled select, space and the two vertical arrows call [show] and
    prevent the default action, and never submit; every other key leaves the
    state as it is and prevents nothing; a form is submitted exactly for
    Enter inside a form.  The caller's [onKeyDown] runs first, for every
    key. *)
Theorem Select_keyboard (p : Props Required) (event : KeyboardEvent) (st : State) :
  disabled (picked p) = false ->
  let after := fst (step p (KeyDown event) st) in
  let effects := snd (step p (KeyDown event) st) in
  (opensListbox (key event) = true ->
   after = show st /\ In PreventDefault effects /\ ~ In SubmitForm effects)
  /\ (opensListbox (key event) = false ->
      after = st /\ ~ In PreventDefault effects
      /\ (In SubmitForm effects
          <-> key event = "Enter" /\ insideForm event = true))
  /\ (forall callback, onKeyDown p = Some callback ->
                       exists rest, effects = Invoke callback :: rest).
Proof.
  intros Hd. cbv zeta. unfold dispatch. simpl. rewrite Hd.
  unfold handleKeyDown, opensListbox.
  destruct (String.eqb (key event) " " || String.eqb (key event) "ArrowUp"
            || String.eqb (key event) "ArrowDown") eqn:Ho; simpl.
  - split; [| split]; [| discriminate |].
    + intros _. split; [reflexivity |]. split.
      * apply in_or_app. right. left. reflexivity.
      * intros H. apply in_app_or in H as [H | [H | []]]; [| discriminate].
        destruct (onKeyDown p); simpl in H; intuition discriminate.
    + intros callback ->. simpl. eauto.
  - split; [discriminate |]. split.
    + intros _.
      destruct (String.eqb_spec (key event) "Enter") as [E | E]; simpl.
      * split; [reflexivity |]. split.
        -- intros H. apply in_app_or in H as [H | H].
           ++ destruct (onKeyDown p); simpl in H; intuition discriminate.
           ++ destruct (insideForm event); simpl in H; intuition discriminate.
        -- split.
           ++ intros H. apply in_app_or in H as [H | H].
              ** destruct (onKeyDown p); simpl in H; intuition discriminate.
              ** destruct (insideForm event); simpl in H; intuition.
           ++ intros [_ Hf]. rewrite Hf. apply in_or_app. right. left.
              reflexivity.
      * split; [reflexivity |]. split.
        -- destruct (onKeyDown p); simpl; intuition discriminate.
        -- split; [| tauto].
           destruct (onKeyDown p); simpl; intuition discriminate.
    + intros callback ->.
      destruct (String.eqb (key event) "Enter"); simpl; eauto.
Qed.

(** X16: The only callback prop [handleClick] invokes is [onClick], the only
    one [handleKeyDown] invokes is [onKeyDown]; [handleKeyboardClose] invokes
    none itself, but its [focus()] runs the focus handler of the element:
    [onFocus], and no other prop, is invoked, exactly when the element is
    mounted, not disabled and does not have the focus already.  None of the
    three invokes [onChange] or [onBlur]. *)
Theorem Select_handlers_call_their_own_prop
        (p : @Props ListboxOption Required) (event : KeyboardEvent)
        (active : option nat) (st : State) callback :
  (In (Invoke callback) (snd (handleClick p st)) <-> onClick p = Some callback)
  /\ (In (Invoke callback) (snd (handleKeyDown p event st))
      <-> onKeyDown p = Some callback)
  /\ (In (Invoke callback) (snd (handleKeyboardClose option_truthy p active st))
      <-> onFocus p = Some callback
          /\ disabled (picked p) = false
          /\ exists node, selectRef st = Some node /\ active <> Some node).
Proof.
  split; [| split].
  - unfold handleClick, invoke. simpl.
    destruct (onClick p); simpl; intuition congruence.
  - unfold handleKeyDown, invoke.
    destruct (_ || _); [| destruct (String.eqb _ _)]; simpl;
      rewrite ?in_app_iff; destruct (onKeyDown p); simpl;
      try destruct (insideForm event); simpl; intuition congruence.
  - unfold handleKeyboardClose, focus, takesFocus, handleFocus, invoke. simpl.
    destruct (selectRef st) as [node|]; simpl.
    + destruct (disabled (picked p)); simpl.
      * split; [intros [H | []]; discriminate H | intros (_ & H & _); discriminate H].
      * destruct active as [a|]; [destruct (Nat.eqb_spec a node) |]; simpl.
        -- subst. split; [intros [H | []]; discriminate H |].
           intros (_ & _ & n & [= <-] & Hn). contradiction.
        -- split.
           ++ intros [H | H]; [discriminate H |].
              destruct (onFocus p); simpl in H; [| contradiction].
              destruct H as [[= ->] | []].
              repeat split. exists node. split; congruence.
           ++ intros (-> & _). simpl. auto.
        -- split.
           ++ intros [H | H]; [discriminate H |].
              destruct (onFocus p); simpl in H; [| contradiction].
              destruct H as [[= ->] | []].
              repeat split. exists node. split; congruence.
           ++ intros (-> & _). simpl. auto.
    + split; [intros [] | intros (_ & _ & n & H & _); discriminate H].
Qed.

(** X17: What the value element shows: the display label when it is truthy;
    otherwise the placeholder, and only for a select without a value (a
    value of 0 counts as a value); otherwise nothing. *)
Theorem Select_value_element_children (p : Props Required) (st : State) :
  let shown := v_children (valueSpan (tree p st)) in
  let display := displayValue option_truthy p in
  (truthy display = true -> shown = display)
  /\ (truthy display = false -> valued (value p) = false ->
      shown = placeholder p)
  /\ (truthy display = false -> valued (value p) = true ->
      shown = VBool false)
  /\ valued (VNumber 0) = true
  /\ valued (VString "") = false.
Proof.
  cbv zeta. simpl. unfold js_or, js_and.
  repeat split; try intros Hd; try intros Hv; rewrite ?Hd, ?Hv; reflexivity.
Qed.

Lemma find_first {A} (f : A -> bool) pre o post :
  (forall x, In x pre -> f x = false) -> f o = true ->
  find f (pre ++ o :: post) = Some o.
Proof.
  intros Hpre Ho. induction pre as [|x pre IH]; simpl.
  - now rewrite Ho.
  - rewrite (Hpre x) by (left; reflexivity).
    apply IH. intros y Hy. apply Hpre. right. exact Hy.
Qed.

(** X18: Which option is displayed: the first one whose value is strictly equal
    to [value], provided the option itself is truthy; no option when none
    matches or when the match is falsy. *)
Theorem Select_displays_first_match (p : Props Required) pre o post :
  let d := picked p in
  let matches x := strict_equal (getOptionValue d x (valueKey d)) (value p) in
  options p = pre ++ o :: post ->
  (forall x, In x pre -> matches x = false) ->
  matches o = true ->
  displayValue option_truthy p
  = getDisplayLabel d (if option_truthy o then Some o else None)
      (labelKey d) (negb (disableLeftAddon d)).
Proof.
  cbv zeta. intros Ho Hpre Hm. unfold displayValue. rewrite Ho.
  rewrite (find_first _ pre o post Hpre Hm). reflexivity.
Qed.

(** X19: When no option has a value strictly equal to [value] (in particular
    with no options at all), the display label is computed from no option. *)
Theorem Select_displays_nothing_without_match (p : Props Required) :
  let d := picked p in
  (forall x, In x (options p) ->
     strict_equal (getOptionValue d x (valueKey d)) (value p) = false) ->
  displayValue option_truthy p
  = getDisplayLabel d None (labelKey d) (negb (disableLeftAddon d)).
Proof.
  cbv zeta. intros H. unfold displayValue.
  assert (F : find (fun x => strict_equal
                               (getOptionValue (picked p) x (valueKey (picked p)))
                               (value p))
                   (options p) = None).
  { induction (options p) as [|x l IH]; simpl; [reflexivity |].
    rewrite (H x) by (left; reflexivity).
    apply IH. intros y Hy. apply H. right. exact Hy. }
  rewrite F. reflexivity.
Qed.

Lemma block_value_tokens (m : Modifier) :
  wordKeys m ->
  classList (block (Some (BElement "value")) (Some m))
  = valueToken :: modifierTokens valueToken m.
Proof.
  intros H. unfold block, bem. simpl String.append.
  apply classList_modify; [reflexivity | discriminate | exact H].
Qed.

Lemma label_class_prop (p : Props Required) (st : State) :
  classList (orEmpty (FloatingLabel.className (floatingLabel (tree p st))))
  = "rmd-select__label" :: classList (orEmpty (labelClassName p)).
Proof.
  unfold render. cbn [floatingLabel FloatingLabel.className orEmpty].
  rewrite classList_cn2. unfold block, bem. simpl String.append.
  rewrite classList_word; [reflexivity | reflexivity | discriminate].
Qed.

Lemma label_computed_tokens (p : Props Required) (st : State) :
  FloatingLabel.computedTokens (floatingLabel (tree p st))
  = "rmd-floating-label"
      :: tokenIf (dense (picked p)) denseToken
      ++ tokenIf (valued (value p)) FloatingLabel.activeToken
      ++ tokenIf (valued (value p) && negb (focused st || visible st))
           FloatingLabel.inactiveToken.
Proof.
  rewrite FloatingLabelFacts.computedTokens_eq.
  unfold modifierTokens, tokenIf, FloatingLabel.modifiers,
    FloatingLabel.isActive, js_and, js_or, js_not. simpl.
  destruct (dense (picked p)), (valued (value p)), (focused st), (visible st);
    reflexivity.
Qed.

(** X20: The class lists of the rendered select.  The container carries
    [rmd-select], the disabled modifier iff disabled, then the caller's
    [className].  The value element carries [rmd-select__value], then in
    this order the disabled, readonly, placeholder and placeholder-active
    modifiers (the placeholder ones only for a select without a value and
    with a truthy placeholder, the last only while focused), then the
    caller's [displayLabelClassName].  The [className] prop handed to the
    floating label is [rmd-select__label] followed by the caller's
    [labelClassName]; the label that FloatingLabel renders from it carries
    [rmd-floating-label] and its dense, active and inactive modifiers first,
    and those two after them. *)
Theorem Select_class_lists (p : Props Required) (st : State) :
  let d := picked p in
  let unvalued := negb (valued (value p)) && truthy (placeholder p) in
  classList (c_className (container (tree p st)))
  = "rmd-select" :: tokenIf (disabled d) "rmd-select--disabled"
      ++ classList (orEmpty (className p))
  /\ classList (v_className (valueSpan (tree p st)))
     = valueToken
         :: (tokenIf (disabled d) "rmd-select__value--disabled"
             ++ tokenIf (truthy_bool (readOnly p)) "rmd-select__value--readonly"
             ++ tokenIf unvalued "rmd-select__value--placeholder"
             ++ tokenIf (unvalued && focused st)
                  "rmd-select__value--placeholder-active")
         ++ classList (orEmpty (displayLabelClassName p))
  /\ classList (orEmpty (FloatingLabel.className (floatingLabel (tree p st))))
     = "rmd-select__label" :: classList (orEmpty (labelClassName p))
  /\ classList (FloatingLabel.labelClassName
                  (FloatingLabel.FloatingLabel (floatingLabel (tree p st))))
     = "rmd-floating-label"
         :: (tokenIf (dense d) denseToken
             ++ tokenIf (valued (value p)) FloatingLabel.activeToken
             ++ tokenIf (valued (value p) && negb (focused st || visible st))
                  FloatingLabel.inactiveToken)
         ++ "rmd-select__label" :: classList (orEmpty (labelClassName p)).
Proof.
  cbv zeta. split; [| split; [| split]].
  - unfold render. cbn [container c_className].
    rewrite classList_cn2. unfold block, bem.
    rewrite classList_modify;
      [| reflexivity | discriminate | repeat constructor].
    unfold modifierTokens, tokenIf. simpl.
    destruct (disabled (picked p)); reflexivity.
  - unfold render. cbn [valueSpan v_className].
    rewrite classList_cn2.
    rewrite block_value_tokens by (repeat constructor).
    unfold modifierTokens, tokenIf, js_and, truthy_bool. simpl. f_equal.
    destruct (disabled (picked p)), (readOnly p) as [[|]|],
      (valued (value p)), (truthy (placeholder p)) eqn:Hp;
      simpl; rewrite ?Hp; simpl; try reflexivity;
      destruct (focused st); simpl; rewrite ?Hp; reflexivity.
  - apply label_class_prop.
  - rewrite FloatingLabelFacts.FloatingLabel_classList.
    rewrite label_class_prop, label_computed_tokens.
    simpl. now rewrite <- !app_assoc.
Qed.

(** X21: The floating label of a select: it carries the active modifier iff the
    select has a value, and the inactive modifier iff it has a value and is
    neither focused nor open; the select passes no [outline], [underline]
    or [covering], so the label never carries the outline-active, the
    underline-left-offset or the covering modifier. *)
Theorem Select_label_modifiers (p : Props Required) (st : State) :
  let tokens := FloatingLabel.computedTokens (floatingLabel (tree p st)) in
  (In FloatingLabel.activeToken tokens <-> valued (value p) = true)
  /\ (In FloatingLabel.inactiveToken tokens
      <-> (valued (value p) && negb (focused st || visible st)) = true)
  /\ (In denseToken tokens <-> dense (picked p) = true)
  /\ ~ In outlineActiveToken tokens
  /\ ~ In underlineLeftOffsetToken tokens
  /\ ~ In coveringToken tokens.
Proof.
  cbv zeta.
  rewrite FloatingLabelFacts.activeToken_present,
    FloatingLabelFacts.inactiveToken_present,
    FloatingLabelMore.denseToken_present,
    FloatingLabelMore.outlineActiveToken_present,
    FloatingLabelMore.underlineLeftOffsetToken_present,
    FloatingLabelMore.coveringToken_present.
  unfold floats, FloatingLabel.activeFlag, truthy_bool. simpl.
  destruct (valued (value p)), (focused st), (visible st),
    (dense (picked p)); simpl; intuition congruence.
Qed.

End Facts.

Example listening_label_class :
  FloatingLabel.labelClassName
    (FloatingLabel.FloatingLabel
       (floatingLabel (render Samples.optionTruthy MoreSamples.listeningSelect
                         Samples.openState)))
  = "rmd-floating-label rmd-floating-label--active rmd-select__label".
Proof. reflexivity. Qed.

Example keyboard_close_focuses :
  dispatch Samples.optionTruthy Samples.flatDocument MoreSamples.listeningSelect
    (RequestClose (Some 8)) Samples.openState
  = ({| visible := false; focused := true; selectRef := Some 7;
        fixedStyle := None |},
     [FocusNode 7; Invoke 4]).
Proof. reflexivity. Qed.

Example keyboard_close_when_focused :
  dispatch Samples.optionTruthy Samples.flatDocument MoreSamples.listeningSelect
    (RequestClose (Some 7)) Samples.openState
  = ({| visible := false; focused := false; selectRef := Some 7;
        fixedStyle := None |},
     [FocusNode 7]).
Proof. reflexivity. Qed.

Lemma Select_disabled_is_inert_witness :
  dispatch Samples.optionTruthy Samples.flatDocument MoreSamples.disabledSelect
    Click initialState
  = (initialState, []).
Proof.
  apply (Select_disabled_is_inert Samples.optionTruthy Samples.flatDocument
           MoreSamples.disabledSelect initialState eq_refl).
Defined.

Lemma Select_keyboard_witness :
  fst (dispatch Samples.optionTruthy Samples.flatDocument
         (MoreSamples.enabledSelect (VString "")) (KeyDown MoreSamples.spaceKey)
         initialState)
  = show initialState
  /\ In SubmitForm
       (snd (dispatch Samples.optionTruthy Samples.flatDocument
               (MoreSamples.enabledSelect (VString ""))
               (KeyDown MoreSamples.enterKey) initialState)).
Proof.
  split.
  - apply (proj1 (Select_keyboard Samples.optionTruthy Samples.flatDocument
                    (MoreSamples.enabledSelect (VString ""))
                    MoreSamples.spaceKey initialState eq_refl)).
    reflexivity.
  - apply (proj1 (proj2 (Select_keyboard Samples.optionTruthy
                           Samples.flatDocument
                           (MoreSamples.enabledSelect (VString ""))
                           MoreSamples.enterKey initialState eq_refl))).
    + reflexivity.
    + split; reflexivity.
Defined.

Lemma Select_value_element_children_witness :
  v_children (valueSpan (render Samples.optionTruthy
                           (MoreSamples.enabledSelect (VString ""))
                           initialState))
  = VString "Choose"
  /\ v_children (valueSpan (render Samples.optionTruthy
                              (MoreSamples.enabledSelect (VNumber 0))
                              initialState))
     = VBool false.
Proof.
  split.
  - apply (proj1 (proj2 (Select_value_element_children Samples.optionTruthy
                           (MoreSamples.enabledSelect (VString ""))
                           initialState))); reflexivity.
  - apply (proj1 (proj2 (proj2 (Select_value_element_children
                                  Samples.optionTruthy
                                  (MoreSamples.enabledSelect (VNumber 0))
                                  initialState)))); reflexivity.
Defined.

Lemma Select_displays_first_match_witness :
  displayValue Samples.optionTruthy (MoreSamples.enabledSelect (VString "Option 3"))
  = VString "Option 3".
Proof.
  apply (Select_displays_first_match Samples.optionTruthy
           (MoreSamples.enabledSelect (VString "Option 3"))
           ["Option 1"; "Option 2"] "Option 3"
           ["Option 4"; "Option 5"; "Option 6"; "Option 7"; "Option 8"]).
  - reflexivity.
  - intros x [<- | [<- | []]]; reflexivity.
  - reflexivity.
Defined.

Lemma Select_displays_nothing_without_match_witness :
  displayValue Samples.optionTruthy (MoreSamples.enabledSelect (VString "Option 9"))
  = VNull.
Proof.
  apply (Select_displays_nothing_without_match Samples.optionTruthy
           (MoreSamples.enabledSelect (VString "Option 9"))).
  intros x H. simpl in H.
  repeat (destruct H as [<- | H]; [reflexivity |]). contradiction.
Defined.

End SelectMore.

(* ================================================================== *)
(** * withRipples: what reaches the wrapped component *)
(* ================================================================== *)

Module WithRipplesMore.
Import JS WithRipples ClassFacts Support.

Section Facts.

Context {Ripples : Type}.
Variable useRipplesState : Attrs -> RipplesState (Ripples := Ripples).
Variable usePressedStates : Attrs -> PressedStates.

Local Abbreviation wrapped := (WithRipples useRipplesState usePressedStates).
Local Abbreviation handlers := (handlersInUse useRipplesState usePressedStates).

Lemma rest_lookup (providedProps : Attrs) k :
  rest providedProps !! k
  = if isRippleOption k then None else providedProps !! k.
Proof.
  unfold rest, isRippleOption.
  destruct (String.eqb_spec k "disableRipple") as [-> | H1]; simpl.
  { apply lookup_delete_eq. }
  rewrite lookup_delete_ne by congruence.
  destruct (String.eqb_spec k "disableProgrammaticRipple") as [-> | H2]; simpl.
  { apply lookup_delete_eq. }
  rewrite lookup_delete_ne by congruence.
  destruct (String.eqb_spec k "rippleClassName") as [-> | H3]; simpl.
  { apply lookup_delete_eq. }
  rewrite lookup_delete_ne by congruence.
  destruct (String.eqb_spec k "rippleContainerClassName") as [-> | H4]; simpl.
  { apply lookup_delete_eq. }
  now rewrite lookup_delete_ne by congruence.
Qed.

Lemma spread_lookup (h props : Attrs) k :
  (h ∪ props) !! k
  = match h !! k with Some v => Some v | None => props !! k end.
Proof.
  rewrite lookup_union. destruct (h !! k), (props !! k); reflexivity.
Qed.

(** X22: What the wrapped component receives under a prop name, [ripples] and
    (without ripples) [className] apart: the handler the hook in use binds
    under that name, if any; otherwise the caller's prop, except that the
    four ripple options are never handed on. *)
Theorem WithRipples_forwarding (providedProps : Attrs) k :
  k <> "ripples" ->
  (disableRipple (useRipplesState providedProps) = true -> k <> "className") ->
  forwarded (wrapped providedProps) !! k
  = match handlers providedProps !! k with
    | Some h => Some h
    | None => if isRippleOption k then None else providedProps !! k
    end.
Proof.
  intros Hr Hc. unfold WithRipples, handlersInUse.
  destruct (disableRipple (useRipplesState providedProps)); simpl.
  - rewrite lookup_insert_ne by (specialize (Hc eq_refl); congruence).
    rewrite lookup_delete_ne by congruence.
    now rewrite spread_lookup, rest_lookup.
  - rewrite lookup_delete_ne by congruence.
    now rewrite spread_lookup, rest_lookup.
Qed.

Lemma classList_pressed (s : option string) (b : bool) :
  classList (cn [CStr s; CObj [("rmd-states--pressed", VBool b)]])
  = classList (orEmpty s) ++ tokenIf b "rmd-states--pressed".
Proof.
  unfold cn, tokenIf. simpl.
  destruct s as [s|]; simpl.
  - destruct (String.eqb_spec s "") as [-> | Hs]; destruct b; simpl;
      rewrite ?app_nil_r; try reflexivity.
    destruct s; [congruence |]. simpl.
    pose proof (classList_space (String a s) "rmd-states--pressed") as E.
    simpl String.append in E. exact E.
  - destruct b; reflexivity.
Qed.

(** X23: With ripples disabled the wrapped component gets [ripples={null}] and a
    [className] that always is a string: the caller's class, followed by
    [rmd-states--pressed] exactly while pressed (the empty string when there
    is neither).  With ripples enabled it gets a ripple container that
    carries the two ripple class names of the caller. *)
Theorem WithRipples_ripples_and_pressed_class
        (providedProps : Attrs) (callerClass : option string) :
  providedProps !! "className" = AStr <$> callerClass ->
  (disableRipple (useRipplesState providedProps) = true ->
   ripplesProp (wrapped providedProps) = None
   /\ exists c,
       forwarded (wrapped providedProps) !! "className" = Some (AStr c)
       /\ classList c
          = classList (orEmpty callerClass)
            ++ tokenIf (pressed (usePressedStates providedProps))
                 "rmd-states--pressed")
  /\ (disableRipple (useRipplesState providedProps) = false ->
      exists container,
        ripplesProp (wrapped providedProps) = Some container
        /\ c_className container = providedProps !! "rippleContainerClassName"
        /\ c_rippleClassName container = providedProps !! "rippleClassName").
Proof.
  intros Hclass. unfold WithRipples. split; intros Hd; rewrite Hd; simpl.
  - split; [reflexivity |]. eexists. split; [apply lookup_insert_eq |].
    rewrite rest_lookup. simpl. rewrite Hclass.
    destruct callerClass as [s|]; simpl; apply classList_pressed.
  - eexists. repeat split.
Qed.

End Facts.

Lemma WithRipples_forwarding_witness :
  forwarded (WithRipples MoreSamples.sampleRipplesState
               MoreSamples.samplePressedStates MoreSamples.quietButton)
    !! "rippleClassName" = None
  /\ forwarded (WithRipples MoreSamples.sampleRipplesState
                  MoreSamples.samplePressedStates MoreSamples.quietButton)
       !! "type" = Some (AStr "submit").
Proof.
  split.
  - rewrite (WithRipples_forwarding MoreSamples.sampleRipplesState
               MoreSamples.samplePressedStates MoreSamples.quietButton
               "rippleClassName"); [reflexivity | discriminate |].
    intros _. discriminate.
  - rewrite (WithRipples_forwarding MoreSamples.sampleRipplesState
               MoreSamples.samplePressedStates MoreSamples.quietButton
               "type"); [reflexivity | discriminate |].
    intros _. discriminate.
Defined.

Lemma WithRipples_ripples_and_pressed_class_witness :
  exists c,
    forwarded (WithRipples MoreSamples.sampleRipplesState
                 MoreSamples.samplePressedStates MoreSamples.quietButton)
      !! "className" = Some (AStr c)
    /\ classList c = ["big"; "rmd-states--pressed"].
Proof.
  apply (proj1 (WithRipples_ripples_and_pressed_class
                  MoreSamples.sampleRipplesState
                  MoreSamples.samplePressedStates MoreSamples.quietButton
                  (Some "big") eq_refl)).
  reflexivity.
Defined.

End WithRipplesMore.

(* ================================================================== *)
(** * SelectExample: what the example hands to its select *)
(* ================================================================== *)

Module SelectExampleMore.
Import JS Select SelectExample.

Example options_listed : options = Samples.exampleOptions.
Proof. reflexivity. Qed.

Section Facts.

Variable option_truthy : string -> bool.
Variable DEFAULT_GET_OPTION_ID : string -> nat -> string.
Variable DEFAULT_GET_OPTION_LABEL : string -> string -> Value.
Variable DEFAULT_GET_ITEM_VALUE : string -> string -> Value.
Variable DEFAULT_GET_DISPLAY_LABEL : option string -> string -> bool -> Value.

Local Abbreviation SelectC :=
  (Select.Select option_truthy DEFAULT_GET_OPTION_ID DEFAULT_GET_OPTION_LABEL
     DEFAULT_GET_ITEM_VALUE DEFAULT_GET_DISPLAY_LABEL).

(** Whatever props the field configuration hands to [renderField], and
    whatever the instance state of the select: after [handleChange(v)] the
    select is given [v] as its value (and has a value iff [v] is not empty),
    the eight options, the example's own [onChange] and its movement flag;
    the configuration's [rightChildren] is discarded, so the select shows
    its default drop-down icon. *)
Theorem SelectExample_controls_its_select
        (handleChangeRef : nat) (props : Select.Props Optional)
        (st : SelectExample.State) (v : string) (s : Select.State) :
  let t := SelectC (renderField handleChangeRef props (handleChange v st)) s in
  l_value (listbox t) = VString v
  /\ FloatingLabel.valued (floatingLabel t) = negb (String.eqb v "")
  /\ l_options (listbox t) = options
  /\ l_onChange (listbox t) = Some handleChangeRef
  /\ l_disableMovementChange (listbox t) = disableMovementChange st
  /\ c_id (container t) = "custom-select-1"
  /\ c_rightChildren (container t)
     = VElement "FontIcon" None None None ∅ (VString "arrow_drop_down").
Proof. cbv zeta. repeat split. Qed.

Lemma first_occurrence (v : string) (l : list string) :
  In v l -> exists pre post, l = pre ++ v :: post /\ ~ In v pre.
Proof.
  induction l as [|x l IH]; intros H; [contradiction |].
  destruct (string_dec x v) as [-> | Hne].
  - exists [], l. split; [reflexivity | intros []].
  - destruct H as [H | H]; [contradiction |].
    destruct (IH H) as (pre & post & -> & Hpre).
    exists (x :: pre), post. split; [reflexivity |].
    intros [E | E]; [contradiction | auto].
Qed.

(** X24: Choosing one of the listed options displays that option: when the
    field configuration leaves [getOptionValue] to its default and the
    default reads a string option as its own value, then after
    [handleChange(v)] with [v] among the options the display label is
    computed from [v] itself. *)
Theorem SelectExample_displays_the_chosen_option
        (handleChangeRef : nat) (props : Select.Props Optional)
        (st : SelectExample.State) (v : string) :
  (forall o k, DEFAULT_GET_ITEM_VALUE o k = VString o) ->
  getOptionValue (picked props) = None ->
  In v options ->
  let q := withDefaultProps DEFAULT_GET_OPTION_ID DEFAULT_GET_OPTION_LABEL
             DEFAULT_GET_ITEM_VALUE DEFAULT_GET_DISPLAY_LABEL
             (renderField handleChangeRef props (handleChange v st)) in
  displayValue option_truthy q
  = getDisplayLabel (picked q) (if option_truthy v then Some v else None)
      (labelKey (picked q)) (negb (disableLeftAddon (picked q))).
Proof.
  intros Hid Hget Hin. cbv zeta.
  destruct (first_occurrence v options Hin) as (pre & post & Hsplit & Hpre).
  unfold displayValue, withDefaultProps, renderField.
  cbn [Select.options]. rewrite Hsplit.
  rewrite (SelectMore.find_first _ pre v post); [reflexivity | |].
  - intros x Hx. simpl. rewrite Hget. simpl. rewrite Hid. simpl.
    apply String.eqb_neq. intros ->. contradiction.
  - simpl. rewrite Hget. simpl. rewrite Hid. simpl. apply String.eqb_refl.
Qed.

End Facts.

Lemma SelectExample_displays_the_chosen_option_witness :
  displayValue Samples.optionTruthy
    (withDefaultProps Samples.sampleGetOptionId Samples.sampleGetOptionLabel
       Samples.sampleGetItemValue Samples.sampleGetDisplayLabel
       (renderField 1 (Samples.exampleSelect "")
          (handleChange "Option 5" initialState)))
  = VString "Option 5".
Proof.
  apply (SelectExample_displays_the_chosen_option Samples.optionTruthy
           Samples.sampleGetOptionId Samples.sampleGetOptionLabel
           Samples.sampleGetItemValue Samples.sampleGetDisplayLabel
           1 (Samples.exampleSelect "") initialState "Option 5").
  - intros o k. reflexivity.
  - reflexivity.
  - vm_compute. auto 10.
Defined.

End SelectExampleMore.
